(** * vcf2seq: fixed-length sequence windows around VCF variants

    A shallow embedding of [src/vcf2seq/vcf2seq.py] and the properties its
    specification states about it.

    Conventions of the embedding:
    - Python [int] is [Z]; [//] with a positive divisor is [Z.div] (both
      floor), [&] is [Z.land] (both two's complement).
    - Python [str] is [string]; [len] counts its characters.
    - [sys.exit(msg)] and uncaught exceptions end the run: functions that
      can do either return a [result].
    - Lists that the source appends to are threaded through as state. *)

From Stdlib Require Import ZArith String Ascii List Lia Bool.
From stdpp Require Import base tactics option list strings gmap.

Local Open Scope string_scope.
Local Open Scope list_scope.
Local Open Scope Z_scope.

(** ** Python text primitives *)

Module Py.

(** [len(s)] *)
Definition len (s : string) : Z := Z.of_nat (String.length s).

(** Truth value of an integer: [if n:] *)
Definition truthy (n : Z) : bool := negb (n =? 0).

Definition LF : ascii := "010"%char.
Definition TAB : ascii := "009"%char.

(** [s.startswith(p)] *)
Definition startswith (p s : string) : bool := String.prefix p s.

(** [s.rstrip(c)] for a one-character [c]: drops every trailing [c]. *)
Fixpoint rstrip (c : ascii) (s : string) : string :=
  match s with
  | EmptyString => EmptyString
  | String a s' =>
      match rstrip c s' with
      | EmptyString => if Ascii.eqb a c then EmptyString else String a EmptyString
      | r => String a r
      end
  end.

(** [s.split(sep)] for a one-character [sep]: never the empty list. *)
Fixpoint split (sep : ascii) (s : string) : list string :=
  match s with
  | EmptyString => [EmptyString]
  | String a s' =>
      if Ascii.eqb a sep then EmptyString :: split sep s'
      else match split sep s' with
           | [] => [String a EmptyString]
           | f :: fs => String a f :: fs
           end
  end.

(** [sep.join(l)] *)
Fixpoint join (sep : string) (l : list string) : string :=
  match l with
  | [] => EmptyString
  | [x] => x
  | x :: rest => x +:+ sep +:+ join sep rest
  end.

(** [s[n:]] and [s[:n]] for [n >= 0] *)
Fixpoint drop (n : nat) (s : string) : string :=
  match n, s with
  | O, _ => s
  | S _, EmptyString => EmptyString
  | S n', String _ s' => drop n' s'
  end.

Fixpoint take (n : nat) (s : string) : string :=
  match n, s with
  | O, _ => EmptyString
  | S _, EmptyString => EmptyString
  | S n', String a s' => String a (take n' s')
  end.

(** [s.rfind(c)] for a one-character [c]; [-1] when absent. *)
Fixpoint rfind_from (c : ascii) (s : string) (i : Z) (found : Z) : Z :=
  match s with
  | EmptyString => found
  | String a s' => rfind_from c s' (i + 1) (if Ascii.eqb a c then i else found)
  end.

Definition rfind (c : ascii) (s : string) : Z := rfind_from c s 0 (-1).

(** [l[i]] on a list, with Python's negative indices; [None] is
    [IndexError]. *)
Definition getitem {A} (l : list A) (i : Z) : option A :=
  let n := Z.of_nat (length l) in
  if (0 <=? i) && (i <? n) then l !! Z.to_nat i
  else if (- n <=? i) && (i <? 0) then l !! Z.to_nat (n + i)
  else None.

(** [s[0]] on a string, as a one-character string; [None] is
    [IndexError]. *)
Definition first_char (s : string) : option string :=
  match s with
  | EmptyString => None
  | String a _ => Some (String a EmptyString)
  end.

(** [max(l)] on a list of integers; [None] is [ValueError] (empty). *)
Definition max_list (l : list Z) : option Z :=
  match l with
  | [] => None
  | x :: rest => Some (fold_left Z.max rest x)
  end.

(** The built-ins [str.isdigit] and [int] on strings. *)
Record Text := {
  isdigit : string -> bool;
  int : string -> option Z   (* [None] is [ValueError] *)
}.

(** *** The two built-ins on plain (ASCII) text *)

Definition is_digit (a : ascii) : bool :=
  let n := nat_of_ascii a in (48 <=? n)%nat && (n <=? 57)%nat.

Definition digit_val (a : ascii) : Z := Z.of_nat (nat_of_ascii a) - 48.

Definition is_space (a : ascii) : bool :=
  let n := nat_of_ascii a in
  (n =? 32)%nat || ((9 <=? n)%nat && (n <=? 13)%nat).

Fixpoint all_digits (s : string) : bool :=
  match s with
  | EmptyString => true
  | String a s' => is_digit a && all_digits s'
  end.

Definition ascii_isdigit (s : string) : bool :=
  match s with
  | EmptyString => false
  | _ => all_digits s
  end.

Fixpoint lstrip_space (s : string) : string :=
  match s with
  | String a s' => if is_space a then lstrip_space s' else s
  | EmptyString => EmptyString
  end.

Fixpoint all_space (s : string) : bool :=
  match s with
  | EmptyString => true
  | String a s' => is_space a && all_space s'
  end.

(** Digits with single underscores between them, then optional trailing
    white space.  [acc] is the value read so far; [after_digit] tells
    whether the previous character was a digit. *)
Fixpoint int_digits (s : string) (acc : Z) (after_digit : bool) : option Z :=
  match s with
  | EmptyString => if after_digit then Some acc else None
  | String a s' =>
      if is_digit a then int_digits s' (10 * acc + digit_val a) true
      else if Ascii.eqb a "_"%char then
        (if after_digit then
           match s' with
           | String b _ => if is_digit b then int_digits s' acc false else None
           | EmptyString => None
           end
         else None)
      else if after_digit && all_space s then Some acc
      else None
  end.

Definition ascii_int (s : string) : option Z :=
  match lstrip_space s with
  | String "-" s' => Z.opp <$> int_digits s' 0 false
  | String "+" s' => int_digits s' 0 false
  | s' => int_digits s' 0 false
  end.

Definition ascii_text : Text := {| isdigit := ascii_isdigit; int := ascii_int |}.

End Py.

(** [os.path.basename(p)] and [os.path.splitext(p)] (posixpath). *)
Definition basename (p : string) : string :=
  Py.drop (Z.to_nat (Py.rfind "/" p + 1)) p.

Fixpoint all_dots (s : string) : bool :=
  match s with
  | EmptyString => true
  | String a s' => Ascii.eqb a "." && all_dots s'
  end.

Definition splitext (p : string) : string * string :=
  let sepIndex := Py.rfind "/" p in
  let dotIndex := Py.rfind "." p in
  if (sepIndex <? dotIndex)
     && negb (all_dots (Py.take (Z.to_nat (dotIndex - (sepIndex + 1)))
                                (Py.drop (Z.to_nat (sepIndex + 1)) p)))
  then (Py.take (Z.to_nat dotIndex) p, Py.drop (Z.to_nat dotIndex) p)
  else (p, EmptyString).

(** ** Outcomes of a run *)

Inductive Exception := ValueError | IndexError | KeyError | StopIteration.

(** The ways a run ends early.  The first four are the [sys.exit(msg)]
    calls of the source, with the values their message quotes; the last
    is an exception nobody catches (Python prints the traceback). *)
Inductive Fatal :=
| ErrorVcfFormat (pos : string)
    (* "ErrorVcfFormat: second column is the position. It must be a digit" *)
| ErrorChr (chr genome_first : string)
    (* "ErrorChr: Chromosomes are not named in the same way ..." *)
| ErrorColumns (n_fields : Z)
    (* "Error: vcf file has ... columns, but you asked for ..." *)
| ErrorRefBase (nuc : string) (num_row : Z)
    (* "Error: REF base ... is not valid (line ...)" *)
| Uncaught (e : Exception).

Inductive result (A : Type) : Type :=
| Ok (a : A)
| Failed (f : Fatal).
Arguments Ok {A} a.
Arguments Failed {A} f.

#[global] Instance result_ret : MRet result := fun A a => Ok a.
#[global] Instance result_bind : MBind result :=
  fun A B f m => match m with Ok a => f a | Failed e => Failed e end.

(** [sys.exit] with a message and an uncaught exception both leave the
    interpreter with status 1. *)
Definition exit_status {A} (r : result A) : Z :=
  match r with Ok _ => 0 | Failed _ => 1 end.

Definition or_raise {A} (e : Exception) (o : option A) : result A :=
  match o with Some a => Ok a | None => Failed (Uncaught e) end.

(** Monadic left fold: a [for] loop whose body may end the run. *)
Fixpoint for_each {A S} (body : A -> S -> result S) (l : list A) (st : S)
    : result S :=
  match l with
  | [] => Ok st
  | x :: rest => st' ← body x st; for_each body rest st'
  end.

(** Warnings, with the values their message quotes. *)
Inductive Warning :=
| LargeAlteration (chr position ref alt : string)
    (* "Warning: large alteration (chr_position_ref_alt), truncated in output." *)
| RefMismatch (num_row : Z) (chr : string) (pos : Z) (ref seq_ref2 : string)
    (* "Warning: mismatch between REF and genome at line ... " *)
| AltLarger (alt_len size num_row : Z)
    (* "Warning: ALT length (... bp) larger than sequence (... bp) at line ..., ignored." *)
| SizeNotCorrect (num_row alt_len size : Z).
    (* "Warning: sequence size not correct at line ..., ignored (... != ...)." *)

(** One entry of [res_ref] / [res_alt]: the source stores the two lines
    as one string, [render] below; the embedding keeps them apart. *)
Record SequenceRecord := {
  header : string;
  sequence : string
}.

Definition render (r : SequenceRecord) : string :=
  header r +:+ String Py.LF (sequence r).

(** ** Command line *)

Inductive OutputType := Alt | Ref | Both.

Record Args := {
  args_vcf_name : string;          (* args.vcf.name *)
  args_vcf : list string;          (* the lines of args.vcf, as iteration yields them *)
  args_genome : string;
  args_size : Z;                   (* default 31 *)
  args_type : OutputType;          (* default alt *)
  args_blank : string;             (* default "." *)
  args_add_columns : list string;  (* [] when the option is absent *)
  args_output : option string
}.

(** ** The genome ([pyfaidx.Fasta]) *)

Record SequenceProvider := {
  contains : string -> bool;                  (* chr in chr_dict *)
  first_key : option string;                  (* next(iter(chr_dict.keys())) *)
  fetch : string -> Z -> Z -> option string   (* chr_dict[chr][start:end]; None is KeyError *)
}.

(** Modelled from the spec: the SequenceProvider of section 6, which in
    the source is the pyfaidx library: bases of a chromosome over the
    half-open 0-based interval, shorter when the interval runs past a
    boundary of the sequence, empty when the interval is empty. *)
Definition slice (s : string) (start stop : Z) : string :=
  let a := Z.max 0 start in
  let b := Z.min (Py.len s) stop in
  if a <? b then Py.take (Z.to_nat (b - a)) (Py.drop (Z.to_nat a) s)
  else EmptyString.

Fixpoint assoc (c : string) (g : list (string * string)) : option string :=
  match g with
  | [] => None
  | (k, v) :: rest => if String.eqb c k then Some v else assoc c rest
  end.

Definition genome_provider (g : list (string * string)) : SequenceProvider := {|
  contains c := match assoc c g with Some _ => true | None => false end;
  first_key := match g with [] => None | (k, _) :: _ => Some k end;
  fetch c start stop := (fun s => slice s start stop) <$> assoc c g
|}.

(** What the spec asks of any provider (section 4.1, edge case): a
    fetch of zero or negative length yields the empty string. *)
Definition empty_when_nonpositive (P : SequenceProvider) : Prop :=
  forall c start stop s, stop <= start -> fetch P c start stop = Some s -> s = EmptyString.

(** ** The output file and the console *)

Inductive Printed :=
| Colour (code : string)
| WarningLines (ws : list Warning).   (* print( *warnings, sep='\n') *)

Record World := {
  files : gmap string string;
  console : list Printed
}.

(** ** [vcf_ctrl], [compute], [write], [main] *)

Record Coordinates := {
  corr_ref : Z;  corr_alt : Z;
  l_ref2 : Z;  l_ref1 : Z;  l_ref3 : Z;
  ps_ref2 : Z;  ps_ref1 : Z;  pe_ref3 : Z;
  l_alt2 : Z;  l_alt1 : Z;  l_alt3 : Z;
  ps_alt2 : Z;  ps_alt1 : Z;  ps_alt3 : Z;  pe_alt3 : Z
}.

Record Windows := {
  ref_seq : string;
  seq_alt1 : string;
  seq_alt3 : string;
  alt_seq : string;
  seq_ref2 : string
}.

Record State := {
  res_ref : list SequenceRecord;
  res_alt : list SequenceRecord;
  warnings : list Warning
}.

Definition warn (st : State) (w : Warning) : State :=
  {| res_ref := res_ref st; res_alt := res_alt st; warnings := warnings st ++ [w] |}.

Definition accept (st : State) (r a : SequenceRecord) : State :=
  {| res_ref := res_ref st ++ [r]; res_alt := res_alt st ++ [a]; warnings := warnings st |}.

Definition PURPLE : string := String "027" "[95m".
Definition END : string := String "027" "[0m".

Section Program.

Variable py : Py.Text.
Variable chr_dict : SequenceProvider.
(** [ascii.get_index], of the repository's [ascii] module: it turns the
    column names of [--add-columns] into 1-based indices. *)
Variable get_index : list string -> list Z.
Variable args : Args.

(** Lines 41-59.  Only the first row that is not a comment is looked
    at: the loop body ends in [break]. *)
Fixpoint vcf_ctrl (fh : list string) : result unit :=
  match fh with
  | [] => Ok ()
  | row :: rest =>
      if Py.startswith "#" row then vcf_ctrl rest
      else
        match Py.split Py.TAB (Py.rstrip Py.LF row) with
        | chr :: pos :: id :: ref :: alt :: _ =>
            if negb (Py.isdigit py pos) then Failed (ErrorVcfFormat pos)
            else if negb (contains chr_dict chr) then
              match first_key chr_dict with
              | Some k => Failed (ErrorChr chr k)
              | None => Failed (Uncaught StopIteration)
              end
            else Ok ()
        | _ => Failed (Uncaught ValueError)
        end
  end.

(** Lines 116-125. *)
Definition corrections (ref alt : string) : Z * Z :=
  let corr_ref := 0 in
  let corr_alt := 0 in
  if negb (Py.truthy (Z.land (args_size args) 1)) then
    let corr_ref :=
      if Py.truthy (Z.land (Py.len ref) 1) && negb (String.eqb ref (args_blank args))
      then corr_ref + 1 else corr_ref in
    let corr_alt :=
      if Py.truthy (Z.land (Py.len alt) 1) && negb (String.eqb alt (args_blank args))
      then corr_alt + 1 else corr_alt in
    (corr_ref, corr_alt)
  else
    let corr_ref := if negb (Py.truthy (Z.land (Py.len ref) 1)) then corr_ref + 1 else corr_ref in
    let corr_alt := if negb (Py.truthy (Z.land (Py.len alt) 1)) then corr_alt + 1 else corr_alt in
    let corr_ref := if String.eqb ref (args_blank args) then corr_ref + 1 else corr_ref in
    let corr_alt := if String.eqb alt (args_blank args) then corr_alt + 1 else corr_alt in
    (corr_ref, corr_alt).

(** Lines 127-143, with [position] already converted by [int]. *)
Definition coordinates (ref alt : string) (position : Z) : Coordinates :=
  let '(corr_ref, corr_alt) := corrections ref alt in
  let l_ref2 := if String.eqb ref (args_blank args) then 0 else Py.len ref in
  let l_ref1 := (args_size args - l_ref2) / 2 in
  let l_ref3 := l_ref1 + corr_ref in
  let ps_ref2 := position - 1 in
  let ps_ref1 := ps_ref2 - l_ref1 in
  let pe_ref3 := ps_ref2 + l_ref2 + l_ref3 in
  let l_alt2 := if String.eqb alt (args_blank args) then 0 else Py.len alt in
  let l_alt1 := (args_size args - l_alt2) / 2 in
  let l_alt3 := (args_size args - l_alt2) / 2 + corr_alt in
  let ps_alt2 := ps_ref2 - (l_alt2 - l_ref2) / 2 in
  let ps_alt1 := ps_ref2 - l_alt1 in
  let ps_alt3 := ps_ref2 + l_ref2 in
  let pe_alt3 := ps_alt3 + l_alt3 in
  {| corr_ref := corr_ref; corr_alt := corr_alt;
     l_ref2 := l_ref2; l_ref1 := l_ref1; l_ref3 := l_ref3;
     ps_ref2 := ps_ref2; ps_ref1 := ps_ref1; pe_ref3 := pe_ref3;
     l_alt2 := l_alt2; l_alt1 := l_alt1; l_alt3 := l_alt3;
     ps_alt2 := ps_alt2; ps_alt1 := ps_alt1; ps_alt3 := ps_alt3; pe_alt3 := pe_alt3 |}.

(** [chr_dict[chr][start:stop]] *)
Definition getslice (chr : string) (start stop : Z) : result string :=
  or_raise KeyError (fetch chr_dict chr start stop).

(** The four fetches, lines 134, 144-147 and 150. *)
Definition windows (chr alt : string) (k : Coordinates) : result Windows :=
  ref_seq ← getslice chr (ps_ref1 k) (pe_ref3 k);
  seq_alt1 ← getslice chr (ps_alt1 k) (ps_ref2 k);
  let alt := if negb (String.eqb alt (args_blank args)) then alt else EmptyString in
  seq_alt3 ← getslice chr (ps_alt3 k) (pe_alt3 k);
  let alt_seq := seq_alt1 +:+ alt +:+ seq_alt3 in
  seq_ref2 ← getslice chr (ps_ref2 k) (ps_ref2 k + l_ref2 k);
  Ok {| ref_seq := ref_seq; seq_alt1 := seq_alt1; seq_alt3 := seq_alt3;
        alt_seq := alt_seq; seq_ref2 := seq_ref2 |}.

(** Lines 91-96: the first base of REF, then of ALT. *)
Definition check_nuc (NUC : list string) (num_row : Z) (nuc : string) (_ : unit)
    : result unit :=
  if negb (existsb (String.eqb nuc) NUC) then Failed (ErrorRefBase nuc num_row) else Ok ().

(** Line 158. *)
Definition column_text (fields : list string) (cols_id : list Z) : result string :=
  cells ← or_raise IndexError (mapM (fun num => Py.getitem fields (num - 1)) cols_id);
  Ok (Py.join " " cells).

(** Lines 83-165: the body of [for alt in alts]. *)
Definition allele_body (num_row : Z) (fields : list string) (cols_id : list Z)
    (chr position ref : string) (alt : string) (st : State) : result State :=
  let header := ">" +:+ chr +:+ "_" +:+ position +:+ "_" +:+ ref +:+ "_" +:+ alt in
  let st :=
    if Z.max (Py.len ref) (Py.len alt) >? args_size args
    then warn st (LargeAlteration chr position ref alt) else st in
  let NUC := ["A"; "T"; "C"; "G"; args_blank args] in
  ref0 ← or_raise IndexError (Py.first_char ref);
  alt0 ← or_raise IndexError (Py.first_char alt);
  _ ← for_each (check_nuc NUC num_row) [ref0; alt0] ();
  pos ← or_raise ValueError (Py.int py position);
  let k := coordinates ref alt pos in
  w ← windows chr alt k;
  let st :=
    if Py.truthy (l_ref2 k) && negb (String.eqb ref (seq_ref2 w))
    then warn st (RefMismatch num_row chr (ps_ref2 k + 1) ref (seq_ref2 w)) else st in
  col_txt ← column_text fields cols_id;
  if (Py.len (ref_seq w) =? args_size args) && (args_size args =? Py.len (alt_seq w)) then
    Ok (accept st {| header := header +:+ "_ref " +:+ col_txt; sequence := ref_seq w |}
                  {| header := header +:+ "_alt " +:+ col_txt; sequence := alt_seq w |})
  else if Py.len (alt_seq w) >? args_size args then
    Ok (warn st (AltLarger (Py.len (alt_seq w)) (args_size args) num_row))
  else
    Ok (warn st (SizeNotCorrect num_row (Py.len (alt_seq w)) (args_size args))).

(** Lines 70-81: the body of [for variant in args.vcf], after the
    increment of [num_row]. *)
Definition row_body (cols_id : list Z) (num_row : Z) (variant : string) (st : State)
    : result State :=
  if String.eqb (Py.rstrip Py.LF variant) EmptyString || Py.startswith "#" variant then Ok st
  else
    let fields := Py.split Py.TAB (Py.rstrip Py.LF variant) in
    match take 5 fields with
    | [chr; position; id; ref; alts] =>
        _ ← (match args_add_columns args with
             | [] => Ok ()
             | _ :: _ =>
                 m ← or_raise ValueError (Py.max_list cols_id);
                 if m >? Z.of_nat (length fields)
                 then Failed (ErrorColumns (Z.of_nat (length fields))) else Ok ()
             end);
        let alts := Py.split "," alts in
        for_each (allele_body num_row fields cols_id chr position ref) alts st
    | _ => Failed (Uncaught ValueError)
    end.

Fixpoint rows_loop (cols_id : list Z) (vcf : list string) (num_row : Z) (st : State)
    : result State :=
  match vcf with
  | [] => Ok st
  | variant :: rest =>
      let num_row := num_row + 1 in
      st' ← row_body cols_id num_row variant st;
      rows_loop cols_id rest num_row st'
  end.

(** Lines 172-175: [for i,_ in enumerate(res_alt)], reading [res_ref[i]]
    and [res_alt[i]]. *)
Definition both_body (res_ref res_alt : list SequenceRecord) (i : nat)
    (res : list SequenceRecord) : result (list SequenceRecord) :=
  r ← or_raise IndexError (res_ref !! i);
  a ← or_raise IndexError (res_alt !! i);
  Ok ((res ++ [r]) ++ [a]).

(** Lines 167-176. *)
Definition select (st : State) : result (list SequenceRecord) :=
  match args_type args with
  | Alt => Ok (res_alt st)
  | Ref => Ok (res_ref st)
  | Both => for_each (both_body (res_ref st) (res_alt st)) (seq 0 (length (res_alt st))) []
  end.

Definition initial : State := {| res_ref := []; res_alt := []; warnings := [] |}.

(** Lines 62-176. *)
Definition compute : result (list SequenceRecord * list Warning) :=
  let cols_id := get_index (args_add_columns args) in
  st ← rows_loop cols_id (args_vcf args) 0 initial;
  res ← select st;
  Ok (res, warnings st).

(** Lines 183-185. *)
Definition output_path : string :=
  let name := fst (splitext (basename (args_vcf_name args))) in
  match args_output args with
  | Some o => if String.eqb o EmptyString then name +:+ "-vcf2seq.fa" else o
  | None => name +:+ "-vcf2seq.fa"
  end.

(** Lines 180-196.  [open(args.output, 'w')] creates or empties the
    file before anything else happens. *)
Definition write (results : list SequenceRecord) (warnings : list Warning) (w : World)
    : World :=
  let w := {| files := <[output_path := EmptyString]> (files w); console := console w |} in
  match results with
  | [] => w
  | _ :: _ =>
      let w := {| files := <[output_path := Py.join (String Py.LF EmptyString) (map render results)
                                               +:+ String Py.LF EmptyString]> (files w);
                  console := console w |} in
      match warnings with
      | [] => w
      | _ :: _ =>
          {| files := files w;
             console := console w ++ [Colour PURPLE; WarningLines warnings; Colour END] |}
      end
  end.

(** Lines 36-38, once the genome is open. *)
Definition main (w : World) : result World :=
  _ ← vcf_ctrl (args_vcf args);
  '(results, warnings) ← compute;
  Ok (write results warnings w).

End Program.

(** ** Words of the specification *)

(** Section 4.1: the effective length of an allele. *)
Definition effective_length (B allele : string) : Z :=
  if String.eqb allele B then 0 else Py.len allele.

(** Section 4.1, parity rule for odd [K], as the specification words it:
    1 when the effective length is even, and 1 more when the allele is
    the blank marker. *)
Definition claimed_corr_odd (B allele : string) : Z :=
  (if Z.even (effective_length B allele) then 1 else 0)
  + (if String.eqb allele B then 1 else 0).

(** A row that [compute] does not skip, and its second column. *)
Definition is_variant_row (row : string) : bool :=
  negb (String.eqb (Py.rstrip Py.LF row) EmptyString || Py.startswith "#" row).

Definition position_column (row : string) : option string :=
  Py.split Py.TAB (Py.rstrip Py.LF row) !! 1%nat.

(** The variants of the input, in input order: one per alternate
    allele of each row, the alleles of a row in the order listed. *)
Record Variant := {
  line_number : Z;
  columns : list string;
  chromosome : string;
  position : string;
  reference_allele : string;
  alternate_allele : string
}.

Definition row_variants (num_row : Z) (row : string) : list Variant :=
  if is_variant_row row then
    let fields := Py.split Py.TAB (Py.rstrip Py.LF row) in
    match take 5 fields with
    | [chr; pos; id; ref; alts] =>
        map (fun alt => {| line_number := num_row; columns := fields; chromosome := chr;
                           position := pos; reference_allele := ref;
                           alternate_allele := alt |})
            (Py.split "," alts)
    | _ => []
    end
  else [].

Fixpoint variants_from (vcf : list string) (num_row : Z) : list Variant :=
  match vcf with
  | [] => []
  | row :: rest => row_variants (num_row + 1) row ++ variants_from rest (num_row + 1)
  end.

Definition variants (args : Args) : list Variant := variants_from (args_vcf args) 0.

(** The REF and ALT records a variant yields when it is processed on
    its own; [None] when it is rejected. *)
Definition emitted (py : Py.Text) (chr_dict : SequenceProvider) (args : Args)
    (cols_id : list Z) (v : Variant) : option (SequenceRecord * SequenceRecord) :=
  match allele_body py chr_dict args (line_number v) (columns v) cols_id
          (chromosome v) (position v) (reference_allele v) (alternate_allele v) initial with
  | Ok st =>
      match res_ref st, res_alt st with
      | [r], [a] => Some (r, a)
      | _, _ => None
      end
  | Failed _ => None
  end.

(** What a list of accepted pairs looks like under each output
    selection. *)
Definition selection (ty : OutputType) (pairs : list (SequenceRecord * SequenceRecord))
    : list SequenceRecord :=
  match ty with
  | Alt => map snd pairs
  | Ref => map fst pairs
  | Both => flat_map (fun p => [fst p; snd p]) pairs
  end.

(** ** The body of the allele loop, taken apart *)

(** One side of lines 116-125, as a function of the allele. *)
Definition corr_of (args : Args) (allele : string) : Z :=
  if Z.odd (args_size args) then
    (if Z.odd (Py.len allele) then 0 else 1)
    + (if String.eqb allele (args_blank args) then 1 else 0)
  else
    (if Z.odd (Py.len allele) && negb (String.eqb allele (args_blank args)) then 1 else 0).

(** The acceptance test of line 159. *)
Definition accepted (args : Args) (w : Windows) : bool :=
  (Py.len (ref_seq w) =? args_size args) && (args_size args =? Py.len (alt_seq w)).

(** The pair of records of lines 160-161. *)
Definition records_of (chr position ref alt : string) (w : Windows) (col_txt : string)
    : SequenceRecord * SequenceRecord :=
  let header := ">" +:+ chr +:+ "_" +:+ position +:+ "_" +:+ ref +:+ "_" +:+ alt in
  ({| header := header +:+ "_ref " +:+ col_txt; sequence := ref_seq w |},
   {| header := header +:+ "_alt " +:+ col_txt; sequence := alt_seq w |}).

(** The part of [allele_body] that can end the run; it does not look
    at the state. *)
Definition guards (py : Py.Text) (chr_dict : SequenceProvider) (args : Args)
    (num_row : Z) (fields : list string) (cols_id : list Z)
    (chr position ref alt : string) : result (Z * Windows * string) :=
  ref0 ← or_raise IndexError (Py.first_char ref);
  alt0 ← or_raise IndexError (Py.first_char alt);
  _ ← for_each (check_nuc ["A"; "T"; "C"; "G"; args_blank args] num_row) [ref0; alt0] ();
  pos ← or_raise ValueError (Py.int py position);
  w ← windows chr_dict args chr alt (coordinates args ref alt pos);
  col_txt ← column_text fields cols_id;
  Ok (pos, w, col_txt).

(** The state after one allele pair, once its guards are passed. *)
Definition verdict (args : Args) (num_row : Z) (chr position ref alt : string)
    (k : Coordinates) (w : Windows) (col_txt : string) (st : State) : State :=
  let st :=
    if Z.max (Py.len ref) (Py.len alt) >? args_size args
    then warn st (LargeAlteration chr position ref alt) else st in
  let st :=
    if Py.truthy (l_ref2 k) && negb (String.eqb ref (seq_ref2 w))
    then warn st (RefMismatch num_row chr (ps_ref2 k + 1) ref (seq_ref2 w)) else st in
  if accepted args w then
    accept st (fst (records_of chr position ref alt w col_txt))
              (snd (records_of chr position ref alt w col_txt))
  else if Py.len (alt_seq w) >? args_size args then
    warn st (AltLarger (Py.len (alt_seq w)) (args_size args) num_row)
  else warn st (SizeNotCorrect num_row (Py.len (alt_seq w)) (args_size args)).

(** ** A small genome and a few inputs to run the program on *)

Definition acgt10 : string := "ACGTACGTAC".
Definition example_chr1 : string :=
  acgt10 +:+ acgt10 +:+ acgt10 +:+ acgt10 +:+ acgt10 +:+ acgt10 +:+ acgt10 +:+ acgt10.
Definition example_genome : list (string * string) := [("chr1", example_chr1)].

Definition vcf_line (fields : list string) : string :=
  Py.join (String Py.TAB EmptyString) fields +:+ String Py.LF EmptyString.

Definition example_args (K : Z) (ty : OutputType) (rows : list string) : Args := {|
  args_vcf_name := "calls.vcf";
  args_vcf := rows;
  args_genome := "genome.fa";
  args_size := K;
  args_type := ty;
  args_blank := ".";
  args_add_columns := [];
  args_output := None
|}.

Definition no_columns (_ : list string) : list Z := [].

Definition empty_world : World := {| files := ∅; console := [] |}.

Definition example_run (K : Z) (ty : OutputType) (rows : list string) :=
  compute Py.ascii_text (genome_provider example_genome) no_columns (example_args K ty rows).

(** ** Further notions used in the properties *)

(** The two warnings of lines 162-165, which tell that a variant was
    dropped. *)
Definition is_rejection (w : Warning) : bool :=
  match w with
  | AltLarger _ _ _ | SizeNotCorrect _ _ _ => true
  | LargeAlteration _ _ _ _ | RefMismatch _ _ _ _ _ => false
  end.

(** The same command line with another [--type]. *)
Definition with_type (ty : OutputType) (args : Args) : Args := {|
  args_vcf_name := args_vcf_name args;
  args_vcf := args_vcf args;
  args_genome := args_genome args;
  args_size := args_size args;
  args_type := ty;
  args_blank := args_blank args;
  args_add_columns := args_add_columns args;
  args_output := args_output args
|}.

(** The same command line reading other lines. *)
Definition with_vcf (rows : list string) (args : Args) : Args := {|
  args_vcf_name := args_vcf_name args;
  args_vcf := rows;
  args_genome := args_genome args;
  args_size := args_size args;
  args_type := args_type args;
  args_blank := args_blank args;
  args_add_columns := args_add_columns args;
  args_output := args_output args
|}.

(** The two lines a record takes in the output file. *)
Definition record_lines (r : SequenceRecord) : string :=
  header r +:+ String Py.LF (sequence r +:+ String Py.LF EmptyString).

Fixpoint concat_strings (l : list string) : string :=
  match l with
  | [] => EmptyString
  | x :: rest => x +:+ concat_strings rest
  end.

(** [c in s] for a one-character [c]. *)
Fixpoint has_char (c : ascii) (s : string) : bool :=
  match s with
  | EmptyString => false
  | String a s' => Ascii.eqb a c || has_char c s'
  end.

(** [nuc in NUC], line 93. *)
Definition in_NUC (args : Args) (nuc : string) : bool :=
  existsb (String.eqb nuc) ["A"; "T"; "C"; "G"; args_blank args].

(** * Properties *)

(** ** Text primitives *)

Lemma len_nonneg (s : string) : 0 <= Py.len s.
Proof. unfold Py.len. lia. Qed.

Lemma len_app (s t : string) : Py.len (s +:+ t) = Py.len s + Py.len t.
Proof.
  unfold Py.len. rewrite <- Nat2Z.inj_add. f_equal.
  induction s as [|a s IH]; simpl; [reflexivity|]. now rewrite IH.
Qed.

Lemma land1_odd (n : Z) : Py.truthy (Z.land n 1) = Z.odd n.
Proof.
  unfold Py.truthy. change 1 with (Z.ones 1) at 1.
  rewrite Z.land_ones by lia. change (2 ^ 1) with 2.
  rewrite Zmod_odd. destruct (Z.odd n); reflexivity.
Qed.

Lemma split_not_nil (sep : ascii) (s : string) : Py.split sep s <> [].
Proof.
  destruct s as [|a s]; simpl; [discriminate|].
  destruct (Ascii.eqb a sep); [discriminate|].
  destruct (Py.split sep s); discriminate.
Qed.

Lemma half_even (n : Z) : Z.odd n = false -> 2 * (n / 2) = n.
Proof.
  intros H. pose proof (Z.div_mod n 2 ltac:(lia)) as D.
  rewrite Zmod_odd, H in D. lia.
Qed.

Lemma half_odd (n : Z) : Z.odd n = true -> 2 * (n / 2) + 1 = n.
Proof.
  intros H. pose proof (Z.div_mod n 2 ltac:(lia)) as D.
  rewrite Zmod_odd, H in D. lia.
Qed.

Lemma odd_sub (a b : Z) : Z.odd (a - b) = xorb (Z.odd a) (Z.odd b).
Proof. apply Z.odd_sub. Qed.

Example rstrip_ex :
  Py.rstrip Py.LF ("ab" +:+ String Py.LF (String Py.LF EmptyString)) = "ab".
Proof. reflexivity. Qed.

Example split_ex :
  Py.split "," "T,G" = ["T"; "G"] /\ Py.split "," EmptyString = [EmptyString].
Proof. split; reflexivity. Qed.

Example int_ex :
  Py.ascii_int "100" = Some 100 /\ Py.ascii_int "1_0" = Some 10 /\
  Py.ascii_int " +7 " = Some 7 /\ Py.ascii_int "-5" = Some (-5) /\
  Py.ascii_int "abc" = None /\ Py.ascii_int "1__0" = None /\
  Py.ascii_int EmptyString = None /\ Py.ascii_int "5_" = None.
Proof. repeat split; reflexivity. Qed.

Example isdigit_ex :
  Py.ascii_isdigit "100" = true /\ Py.ascii_isdigit "1_0" = false /\
  Py.ascii_isdigit EmptyString = false /\ Py.ascii_isdigit "-5" = false.
Proof. repeat split; reflexivity. Qed.

Example output_path_ex :
  output_path (example_args 31 Alt []) = "calls-vcf2seq.fa" /\
  splitext "dir.d/reads.tar.gz" = ("dir.d/reads.tar", ".gz") /\
  splitext "dir.d/.hidden" = ("dir.d/.hidden", EmptyString).
Proof. repeat split; reflexivity. Qed.

(** The examples of section 8 of the specification. *)
Example substitution_ex :
  example_run 31 Alt [vcf_line ["chr1"; "50"; "."; "C"; "G"]]
  = Ok ([ {| header := ">chr1_50_C_G_alt ";
             sequence := "ACGTACACGTACGTAGACGTACGTACACGTA" |} ], []).
Proof. reflexivity. Qed.

Example even_window_ex :
  l_ref1 (coordinates (example_args 30 Alt []) "A" "G" 100) = 14 /\
  l_ref3 (coordinates (example_args 30 Alt []) "A" "G" 100) = 15 /\
  corr_ref (coordinates (example_args 30 Alt []) "A" "G" 100) = 1.
Proof. repeat split; reflexivity. Qed.

Example multi_allelic_ex :
  example_run 5 Alt [vcf_line ["chr1"; "50"; "."; "C"; "T,G"]]
  = Ok ([ {| header := ">chr1_50_C_T_alt "; sequence := "TATAC" |};
          {| header := ">chr1_50_C_G_alt "; sequence := "TAGAC" |} ], []).
Proof. reflexivity. Qed.

Example mismatch_ex :
  example_run 5 Alt [vcf_line ["chr1"; "50"; "."; "A"; "T"]]
  = Ok ([ {| header := ">chr1_50_A_T_alt "; sequence := "TATAC" |} ],
        [ RefMismatch 1 "chr1" 50 "A" "C" ]).
Proof. reflexivity. Qed.

(** ** The parity correction and the flank lengths *)

Section Flanks.

Variable args : Args.

Lemma corrections_eq ref alt :
  corrections args ref alt = (corr_of args ref, corr_of args alt).
Proof.
  unfold corrections, corr_of. rewrite !land1_odd.
  destruct (Z.odd (args_size args)); cbn [negb];
    destruct (Z.odd (Py.len ref)), (Z.odd (Py.len alt)),
             (String.eqb ref (args_blank args)), (String.eqb alt (args_blank args));
    reflexivity.
Qed.

Lemma coordinates_fields ref alt pos :
  let k := coordinates args ref alt pos in
  corr_ref k = corr_of args ref /\ corr_alt k = corr_of args alt /\
  l_ref2 k = effective_length (args_blank args) ref /\
  l_alt2 k = effective_length (args_blank args) alt /\
  l_ref1 k = (args_size args - effective_length (args_blank args) ref) / 2 /\
  l_alt1 k = (args_size args - effective_length (args_blank args) alt) / 2 /\
  l_ref3 k = (args_size args - effective_length (args_blank args) ref) / 2
             + corr_of args ref /\
  l_alt3 k = (args_size args - effective_length (args_blank args) alt) / 2
             + corr_of args alt /\
  ps_ref2 k = pos - 1 /\
  ps_ref1 k = pos - 1 - (args_size args - effective_length (args_blank args) ref) / 2 /\
  pe_ref3 k = pos - 1 + effective_length (args_blank args) ref
              + ((args_size args - effective_length (args_blank args) ref) / 2
                 + corr_of args ref) /\
  ps_alt1 k = pos - 1 - (args_size args - effective_length (args_blank args) alt) / 2 /\
  ps_alt3 k = pos - 1 + effective_length (args_blank args) ref /\
  pe_alt3 k = pos - 1 + effective_length (args_blank args) ref
              + ((args_size args - effective_length (args_blank args) alt) / 2
                 + corr_of args alt).
Proof.
  unfold coordinates. rewrite corrections_eq. cbn. unfold effective_length.
  repeat split; reflexivity.
Qed.

(** The three lengths of one side add up to [K] for every allele that
    is not the blank marker, whatever its length. *)
Lemma sum_non_blank allele :
  String.eqb allele (args_blank args) = false ->
  (args_size args - effective_length (args_blank args) allele) / 2
  + effective_length (args_blank args) allele
  + ((args_size args - effective_length (args_blank args) allele) / 2 + corr_of args allele)
  = args_size args.
Proof.
  intros HB. unfold effective_length, corr_of. rewrite HB. cbn [negb].
  rewrite andb_true_r.
  destruct (Z.odd (args_size args)) eqn:HK, (Z.odd (Py.len allele)) eqn:HL.
  - pose proof (half_even (args_size args - Py.len allele)) as E.
    rewrite odd_sub, HK, HL in E. specialize (E eq_refl). lia.
  - pose proof (half_odd (args_size args - Py.len allele)) as E.
    rewrite odd_sub, HK, HL in E. specialize (E eq_refl). lia.
  - pose proof (half_odd (args_size args - Py.len allele)) as E.
    rewrite odd_sub, HK, HL in E. specialize (E eq_refl). lia.
  - pose proof (half_even (args_size args - Py.len allele)) as E.
    rewrite odd_sub, HK, HL in E. specialize (E eq_refl). lia.
Qed.

(** The same for the blank marker when it has an odd number of
    characters, one in particular. *)
Lemma sum_blank allele :
  String.eqb allele (args_blank args) = true ->
  Z.odd (Py.len (args_blank args)) = true ->
  (args_size args - effective_length (args_blank args) allele) / 2
  + effective_length (args_blank args) allele
  + ((args_size args - effective_length (args_blank args) allele) / 2 + corr_of args allele)
  = args_size args.
Proof.
  intros HB HO. unfold effective_length, corr_of. rewrite HB. cbn [negb].
  apply String.eqb_eq in HB. subst allele. rewrite HO. cbn [andb].
  rewrite Z.sub_0_r.
  destruct (Z.odd (args_size args)) eqn:HK.
  - pose proof (half_odd (args_size args) HK). lia.
  - pose proof (half_even (args_size args) HK). lia.
Qed.

Lemma sum_single_char_blank allele :
  String.length (args_blank args) = 1%nat ->
  (args_size args - effective_length (args_blank args) allele) / 2
  + effective_length (args_blank args) allele
  + ((args_size args - effective_length (args_blank args) allele) / 2 + corr_of args allele)
  = args_size args.
Proof.
  intros H1. destruct (String.eqb allele (args_blank args)) eqn:HB.
  - apply sum_blank; [exact HB|]. unfold Py.len. rewrite H1. reflexivity.
  - apply sum_non_blank. exact HB.
Qed.

End Flanks.

(** The assumption on the blank marker is needed: the option accepts
    any string, and with a two-character marker and an odd [K] the
    lengths of a blank allele add up to [K + 1]. *)
Example two_character_blank_ex :
  l_ref1 (coordinates {| args_vcf_name := "calls.vcf"; args_vcf := [];
                         args_genome := "genome.fa"; args_size := 31; args_type := Alt;
                         args_blank := "--"; args_add_columns := [];
                         args_output := None |} "--" "G" 100)
  + l_ref2 (coordinates {| args_vcf_name := "calls.vcf"; args_vcf := [];
                           args_genome := "genome.fa"; args_size := 31; args_type := Alt;
                           args_blank := "--"; args_add_columns := [];
                           args_output := None |} "--" "G" 100)
  + l_ref3 (coordinates {| args_vcf_name := "calls.vcf"; args_vcf := [];
                           args_genome := "genome.fa"; args_size := 31; args_type := Alt;
                           args_blank := "--"; args_add_columns := [];
                           args_output := None |} "--" "G" 100)
  = 32.
Proof. reflexivity. Qed.

(** C2.  For both alleles of a variant: the left flank is
    [floor((K - allele_len) / 2)], the right flank is that same value plus
    the parity correction, with [allele_len] the effective length (0 for
    the blank marker, the character count otherwise); and, the blank
    marker being a single character, whenever the effective length is
    below [K] the three lengths add up to [K]. *)
Theorem flank_lengths (args : Args) (ref alt : string) (pos : Z) :
  let K := args_size args in
  let B := args_blank args in
  let k := coordinates args ref alt pos in
  (l_ref2 k = effective_length B ref /\
   l_ref1 k = (K - effective_length B ref) / 2 /\
   l_ref3 k = (K - effective_length B ref) / 2 + corr_ref k) /\
  (l_alt2 k = effective_length B alt /\
   l_alt1 k = (K - effective_length B alt) / 2 /\
   l_alt3 k = (K - effective_length B alt) / 2 + corr_alt k) /\
  (String.length B = 1%nat ->
   (effective_length B ref < K -> l_ref1 k + l_ref2 k + l_ref3 k = K) /\
   (effective_length B alt < K -> l_alt1 k + l_alt2 k + l_alt3 k = K)).
Proof.
  intros K B k. subst K B k.
  destruct (coordinates_fields args ref alt pos)
    as (Hcr & Hca & Hr2 & Ha2 & Hr1 & Ha1 & Hr3 & Ha3 & _).
  split; [|split].
  - rewrite Hcr. auto.
  - rewrite Hca. auto.
  - intros H1. split; intros _.
    + rewrite Hr1, Hr2, Hr3. apply sum_single_char_blank. exact H1.
    + rewrite Ha1, Ha2, Ha3. apply sum_single_char_blank. exact H1.
Qed.

Lemma flank_lengths_witness :
  l_ref1 (coordinates (example_args 30 Alt []) "A" "." 100)
  + l_ref2 (coordinates (example_args 30 Alt []) "A" "." 100)
  + l_ref3 (coordinates (example_args 30 Alt []) "A" "." 100) = 30 /\
  l_alt1 (coordinates (example_args 30 Alt []) "A" "." 100)
  + l_alt2 (coordinates (example_args 30 Alt []) "A" "." 100)
  + l_alt3 (coordinates (example_args 30 Alt []) "A" "." 100) = 30.
Proof.
  destruct (flank_lengths (example_args 30 Alt []) "A" "." 100) as (_ & _ & H).
  destruct (H eq_refl) as [Hr Ha].
  split; [apply Hr | apply Ha]; reflexivity.
Defined.

(** C3, as stated, fails: with the default blank marker ["."] and
    [K = 31], an allele equal to the blank marker gets a correction of
    1, where the claim says 2. *)
Lemma blank_allele_correction_is_one :
  Z.odd (args_size (example_args 31 Alt [])) = true /\
  corr_ref (coordinates (example_args 31 Alt []) "." "G" 100) = 1 /\
  claimed_corr_odd (args_blank (example_args 31 Alt [])) "." = 2 /\
  corr_ref (coordinates (example_args 31 Alt []) "." "G" 100)
    <> claimed_corr_odd (args_blank (example_args 31 Alt [])) ".".
Proof. repeat split. discriminate. Qed.

(** C3, amended.  For odd [K] the correction of an allele is 1 when its
    literal character count is even, plus 1 when it is the blank marker.
    For an allele other than the blank marker that is the claimed
    value; an allele equal to a one-character blank marker gets 1. *)
Theorem odd_window_correction (args : Args) (ref alt : string) (pos : Z) :
  Z.odd (args_size args) = true ->
  (corr_ref (coordinates args ref alt pos)
   = (if Z.even (Py.len ref) then 1 else 0)
     + (if String.eqb ref (args_blank args) then 1 else 0) /\
   corr_alt (coordinates args ref alt pos)
   = (if Z.even (Py.len alt) then 1 else 0)
     + (if String.eqb alt (args_blank args) then 1 else 0)) /\
  (String.eqb ref (args_blank args) = false ->
   corr_ref (coordinates args ref alt pos) = claimed_corr_odd (args_blank args) ref) /\
  (String.eqb alt (args_blank args) = false ->
   corr_alt (coordinates args ref alt pos) = claimed_corr_odd (args_blank args) alt) /\
  (String.length (args_blank args) = 1%nat ->
   (String.eqb ref (args_blank args) = true -> corr_ref (coordinates args ref alt pos) = 1) /\
   (String.eqb alt (args_blank args) = true -> corr_alt (coordinates args ref alt pos) = 1)).
Proof.
  intros HK.
  destruct (coordinates_fields args ref alt pos) as (Hcr & Hca & _).
  rewrite Hcr, Hca. unfold corr_of, claimed_corr_odd, effective_length.
  rewrite HK, <- !Z.negb_odd.
  split; [|split; [|split]].
  - split; [destruct (Z.odd (Py.len ref)) | destruct (Z.odd (Py.len alt))]; reflexivity.
  - intros ->. destruct (Z.odd (Py.len ref)); reflexivity.
  - intros ->. destruct (Z.odd (Py.len alt)); reflexivity.
  - intros H1. split; intros HB; rewrite HB;
      apply String.eqb_eq in HB; subst; unfold Py.len; rewrite H1; reflexivity.
Qed.

Lemma odd_window_correction_witness :
  corr_ref (coordinates (example_args 31 Alt []) "." "GG" 100) = 1 /\
  corr_alt (coordinates (example_args 31 Alt []) "." "GG" 100) = 1.
Proof.
  destruct (odd_window_correction (example_args 31 Alt []) "." "GG" 100 eq_refl)
    as ([_ Ha] & _ & _ & Hb).
  destruct (Hb eq_refl) as [Hr _].
  split; [apply Hr; reflexivity | exact Ha].
Defined.

(** ** The two windows *)

Lemma getslice_ok (P : SequenceProvider) chr a b s :
  getslice P chr a b = Ok s -> fetch P chr a b = Some s.
Proof.
  unfold getslice, or_raise. destruct (fetch P chr a b); congruence.
Qed.

Lemma windows_ok (P : SequenceProvider) (args : Args) chr alt k w :
  windows P args chr alt k = Ok w ->
  fetch P chr (ps_ref1 k) (pe_ref3 k) = Some (ref_seq w) /\
  fetch P chr (ps_alt1 k) (ps_ref2 k) = Some (seq_alt1 w) /\
  fetch P chr (ps_alt3 k) (pe_alt3 k) = Some (seq_alt3 w) /\
  fetch P chr (ps_ref2 k) (ps_ref2 k + l_ref2 k) = Some (seq_ref2 w) /\
  alt_seq w = seq_alt1 w +:+ (if String.eqb alt (args_blank args) then EmptyString else alt)
              +:+ seq_alt3 w.
Proof.
  unfold windows. intros H.
  destruct (getslice P chr (ps_ref1 k) (pe_ref3 k)) as [s1|] eqn:E1; [|discriminate H].
  cbn [mbind result_bind] in H.
  destruct (getslice P chr (ps_alt1 k) (ps_ref2 k)) as [s2|] eqn:E2; [|discriminate H].
  cbn [mbind result_bind] in H.
  destruct (getslice P chr (ps_alt3 k) (pe_alt3 k)) as [s3|] eqn:E3; [|discriminate H].
  cbn [mbind result_bind] in H.
  destruct (getslice P chr (ps_ref2 k) (ps_ref2 k + l_ref2 k)) as [s4|] eqn:E4;
    [|discriminate H].
  cbn [mbind result_bind] in H. injection H as <-. cbn.
  apply getslice_ok in E1, E2, E3, E4.
  repeat split; try assumption.
  destruct (String.eqb alt (args_blank args)); reflexivity.
Qed.

(** C4.  With [p = position - 1], the alternate window is the genome
    over [[p - left, p)], then the literal alternate allele (nothing
    when it is the blank marker), then [right] bases of the genome from
    [p + ref_allele_len] on, where [left] and [right] are the flank
    lengths of the alternate allele's own effective length and
    [ref_allele_len] is the effective length of the reference allele. *)
Theorem alternate_window (P : SequenceProvider) (args : Args)
    (chr ref alt : string) (pos : Z) (w : Windows) :
  windows P args chr alt (coordinates args ref alt pos) = Ok w ->
  let K := args_size args in
  let B := args_blank args in
  let p := pos - 1 in
  let left := (K - effective_length B alt) / 2 in
  let right := (K - effective_length B alt) / 2 + corr_of args alt in
  exists L R : string,
    fetch P chr (p - left) p = Some L /\
    fetch P chr (p + effective_length B ref) (p + effective_length B ref + right) = Some R /\
    alt_seq w = L +:+ (if String.eqb alt B then EmptyString else alt) +:+ R.
Proof.
  intros H K B p left right. subst K B p left right.
  apply windows_ok in H. destruct H as (_ & H1 & H3 & _ & Hseq).
  destruct (coordinates_fields args ref alt pos)
    as (_ & _ & _ & _ & _ & _ & _ & _ & Hp & _ & _ & Hs1 & Hs3 & He3).
  rewrite Hs1, Hp in H1. rewrite Hs3, He3 in H3.
  exists (seq_alt1 w), (seq_alt3 w). auto.
Qed.

Lemma alternate_window_witness :
  exists L R : string,
    fetch (genome_provider example_genome) "chr1" (49 - 14) 49 = Some L /\
    fetch (genome_provider example_genome) "chr1" (49 + 1) (49 + 1 + 15) = Some R /\
    "CGTACACGTACGTATTACGTACGTACACGTA" = L +:+ "TT" +:+ R.
Proof.
  pose proof (alternate_window (genome_provider example_genome)
                (example_args 31 Alt []) "chr1" "C" "TT" 50
                {| ref_seq := "ACGTACACGTACGTACACGTACGTACACGTA";
                   seq_alt1 := "CGTACACGTACGTA"; seq_alt3 := "ACGTACGTACACGTA";
                   alt_seq := "CGTACACGTACGTATTACGTACGTACACGTA"; seq_ref2 := "C" |}
                eq_refl) as H.
  exact H.
Defined.

(** ** One allele pair *)

Section Steps.

Variable py : Py.Text.
Variable chr_dict : SequenceProvider.
Variable args : Args.

Lemma allele_body_eq num_row fields cols_id chr position ref alt st :
  allele_body py chr_dict args num_row fields cols_id chr position ref alt st
  = match guards py chr_dict args num_row fields cols_id chr position ref alt with
    | Ok (pos, w, col_txt) =>
        Ok (verdict args num_row chr position ref alt (coordinates args ref alt pos) w col_txt st)
    | Failed f => Failed f
    end.
Proof.
  unfold allele_body, guards.
  destruct (Py.first_char ref) as [ref0|]; [|reflexivity].
  destruct (Py.first_char alt) as [alt0|]; [|reflexivity].
  cbn [or_raise mbind result_bind].
  destruct (for_each _ _ ()) as [[]|]; [|reflexivity].
  destruct (Py.int py position) as [pos|]; [|reflexivity].
  cbn [or_raise mbind result_bind].
  destruct (windows _ _ _ _ _) as [w|]; [|reflexivity].
  cbn [mbind result_bind].
  destruct (column_text _ _) as [col_txt|]; [|reflexivity].
  cbn [mbind result_bind].
  unfold verdict, accepted, records_of. cbn [fst snd].
  destruct ((Py.len (ref_seq w) =? args_size args)
            && (args_size args =? Py.len (alt_seq w))); [reflexivity|].
  destruct (Py.len (alt_seq w) >? args_size args); reflexivity.
Qed.

Lemma guards_ok num_row fields cols_id chr position ref alt pos w col_txt :
  guards py chr_dict args num_row fields cols_id chr position ref alt = Ok (pos, w, col_txt) ->
  Py.int py position = Some pos /\
  windows chr_dict args chr alt (coordinates args ref alt pos) = Ok w /\
  column_text fields cols_id = Ok col_txt.
Proof.
  unfold guards. intros H.
  destruct (Py.first_char ref) as [ref0|]; [|discriminate H].
  destruct (Py.first_char alt) as [alt0|]; [|discriminate H].
  cbn [or_raise mbind result_bind] in H.
  destruct (for_each _ _ ()) as [[]|]; [|discriminate H].
  destruct (Py.int py position) as [pos'|]; [|discriminate H].
  cbn [or_raise mbind result_bind] in H.
  destruct (windows _ _ _ _ _) as [w'|] eqn:Ew; [|discriminate H].
  cbn [mbind result_bind] in H.
  destruct (column_text _ _) as [col'|]; [|discriminate H].
  cbn [mbind result_bind] in H. injection H as <- <- <-. auto.
Qed.

Lemma verdict_records num_row chr position ref alt k w col_txt st :
  let st' := verdict args num_row chr position ref alt k w col_txt st in
  if accepted args w then
    res_ref st' = res_ref st ++ [fst (records_of chr position ref alt w col_txt)] /\
    res_alt st' = res_alt st ++ [snd (records_of chr position ref alt w col_txt)]
  else res_ref st' = res_ref st /\ res_alt st' = res_alt st.
Proof.
  unfold verdict.
  destruct (accepted args w); [|destruct (Py.len (alt_seq w) >? args_size args)];
    destruct (Z.max (Py.len ref) (Py.len alt) >? args_size args);
    destruct (Py.truthy (l_ref2 k) && negb (String.eqb ref (seq_ref2 w)));
    split; reflexivity.
Qed.

End Steps.

(** ** The loops *)

Section Loops.

Variable py : Py.Text.
Variable chr_dict : SequenceProvider.
Variable args : Args.
Variable cols_id : list Z.

Lemma emitted_eq v :
  (emitted py chr_dict args cols_id) v
  = match guards py chr_dict args (line_number v) (columns v) cols_id (chromosome v)
            (position v) (reference_allele v) (alternate_allele v) with
    | Ok (pos, w, col_txt) =>
        if accepted args w
        then Some (records_of (chromosome v) (position v) (reference_allele v)
                              (alternate_allele v) w col_txt)
        else None
    | Failed _ => None
    end.
Proof.
  unfold emitted. rewrite allele_body_eq.
  destruct (guards _ _ _ _ _ _ _ _ _ _) as [[[pos w] col_txt]|]; [|reflexivity].
  pose proof (verdict_records args (line_number v) (chromosome v) (position v)
                (reference_allele v) (alternate_allele v)
                (coordinates args (reference_allele v) (alternate_allele v) pos)
                w col_txt initial) as H.
  cbv zeta in H. destruct (accepted args w); destruct H as [-> ->]; reflexivity.
Qed.

Lemma allele_body_records num_row fields chr pos ref alt st st' :
  allele_body py chr_dict args num_row fields cols_id chr pos ref alt st = Ok st' ->
  let v := {| line_number := num_row; columns := fields; chromosome := chr;
              position := pos; reference_allele := ref; alternate_allele := alt |} in
  res_ref st' = res_ref st ++ map fst (omap (emitted py chr_dict args cols_id) [v]) /\
  res_alt st' = res_alt st ++ map snd (omap (emitted py chr_dict args cols_id) [v]).
Proof.
  intros H v. cbn [omap list_omap]. rewrite emitted_eq. subst v. cbn [line_number columns
    chromosome position reference_allele alternate_allele].
  rewrite allele_body_eq in H.
  destruct (guards _ _ _ _ _ _ _ _ _ _) as [[[p w] col_txt]|]; [|discriminate H].
  injection H as <-.
  pose proof (verdict_records args num_row chr pos ref alt (coordinates args ref alt p)
                w col_txt st) as H.
  cbv zeta in H. destruct (accepted args w); destruct H as [-> ->]; cbn [map];
    rewrite ?app_nil_r; auto.
Qed.

Lemma alleles_records num_row fields chr pos ref alts : forall st st',
  for_each (allele_body py chr_dict args num_row fields cols_id chr pos ref) alts st = Ok st' ->
  let mk alt := {| line_number := num_row; columns := fields; chromosome := chr;
                   position := pos; reference_allele := ref; alternate_allele := alt |} in
  res_ref st' = res_ref st ++ map fst (omap (emitted py chr_dict args cols_id) (map mk alts)) /\
  res_alt st' = res_alt st ++ map snd (omap (emitted py chr_dict args cols_id) (map mk alts)).
Proof.
  induction alts as [|alt alts IH]; intros st st' H mk.
  - injection H as <-. cbn. rewrite !app_nil_r. auto.
  - cbn [for_each] in H.
    destruct (allele_body _ _ _ _ _ _ _ _ _ alt st) as [st1|] eqn:E1; [|discriminate H].
    cbn [mbind result_bind] in H.
    apply allele_body_records in E1. cbv zeta in E1. destruct E1 as [E1r E1a].
    apply IH in H. cbv zeta in H. destruct H as [Hr Ha].
    rewrite Hr, Ha, E1r, E1a. fold mk.
    change (map mk (alt :: alts)) with ([mk alt] ++ map mk alts).
    rewrite omap_app, !map_app, !app_assoc. auto.
Qed.

Lemma row_body_records num_row row st st' :
  row_body py chr_dict args cols_id num_row row st = Ok st' ->
  res_ref st' = res_ref st ++ map fst (omap (emitted py chr_dict args cols_id)
                                            (row_variants num_row row)) /\
  res_alt st' = res_alt st ++ map snd (omap (emitted py chr_dict args cols_id)
                                            (row_variants num_row row)).
Proof.
  unfold row_body, row_variants, is_variant_row. intros H.
  destruct (String.eqb (Py.rstrip Py.LF row) EmptyString || Py.startswith "#" row).
  - injection H as <-. cbn. rewrite !app_nil_r. auto.
  - cbn [negb].
    destruct (take 5 (Py.split Py.TAB (Py.rstrip Py.LF row)))
      as [|chr [|pos [|id [|ref [|alts [|x rest]]]]]]; try discriminate H.
    destruct (match args_add_columns args with [] => _ | _ :: _ => _ end) as [[]|];
      [|discriminate H].
    cbn [mbind result_bind] in H.
    apply alleles_records in H. exact H.
Qed.

Lemma rows_loop_records vcf : forall num_row st st',
  rows_loop py chr_dict args cols_id vcf num_row st = Ok st' ->
  res_ref st' = res_ref st ++ map fst (omap (emitted py chr_dict args cols_id)
                                            (variants_from vcf num_row)) /\
  res_alt st' = res_alt st ++ map snd (omap (emitted py chr_dict args cols_id)
                                            (variants_from vcf num_row)).
Proof.
  induction vcf as [|row vcf IH]; intros num_row st st' H.
  - injection H as <-. cbn. rewrite !app_nil_r. auto.
  - cbn [rows_loop] in H.
    destruct (row_body _ _ _ _ _ row st) as [st1|] eqn:E1; [|discriminate H].
    cbn [mbind result_bind] in H.
    apply row_body_records in E1. destruct E1 as [E1r E1a].
    apply IH in H. destruct H as [Hr Ha].
    rewrite Hr, Ha, E1r, E1a. cbn [variants_from].
    rewrite omap_app, !map_app, !app_assoc. auto.
Qed.

Lemma lookup_map_middle {A B} (f : A -> B) (pre suf : list A) (x : A) :
  map f (pre ++ x :: suf) !! length pre = Some (f x).
Proof. induction pre as [|y pre IH]; [reflexivity | exact IH]. Qed.

Lemma both_body_middle (pre suf : list (SequenceRecord * SequenceRecord)) x acc :
  both_body (map fst (pre ++ x :: suf)) (map snd (pre ++ x :: suf)) (length pre) acc
  = Ok ((acc ++ [fst x]) ++ [snd x]).
Proof. unfold both_body. now rewrite !lookup_map_middle. Qed.

(** The loop of lines 172-175 on two lists of the same length. *)
Lemma both_loop (suf : list (SequenceRecord * SequenceRecord)) : forall pre acc,
  for_each (both_body (map fst (pre ++ suf)) (map snd (pre ++ suf)))
           (seq (length pre) (length suf)) acc
  = Ok (acc ++ flat_map (fun p => [fst p; snd p]) suf).
Proof.
  induction suf as [|x suf IH]; intros pre acc.
  - cbn. now rewrite app_nil_r.
  - cbn [length seq for_each]. rewrite both_body_middle.
    cbn [mbind result_bind].
    replace (pre ++ x :: suf) with ((pre ++ [x]) ++ suf) by now rewrite <- app_assoc.
    replace (S (length pre)) with (length (pre ++ [x])) by (rewrite length_app; cbn; lia).
    rewrite IH. cbn [flat_map]. now rewrite <- !app_assoc.
Qed.

End Loops.

(** ** The whole of [compute] *)

Lemma select_pairs (args : Args) (pairs : list (SequenceRecord * SequenceRecord)) ws :
  select args {| res_ref := map fst pairs; res_alt := map snd pairs; warnings := ws |}
  = Ok (selection (args_type args) pairs).
Proof.
  unfold select, selection. cbn [res_ref res_alt].
  destruct (args_type args); try reflexivity.
  rewrite length_map.
  exact (both_loop pairs [] []).
Qed.

Lemma rows_loop_pairs py P args cols_id st :
  rows_loop py P args cols_id (args_vcf args) 0 initial = Ok st ->
  st = {| res_ref := map fst (omap (emitted py P args cols_id) (variants args));
          res_alt := map snd (omap (emitted py P args cols_id) (variants args));
          warnings := warnings st |}.
Proof.
  intros H. apply rows_loop_records in H. destruct H as [Hr Ha].
  destruct st as [rr ra ws]. cbn in Hr, Ha. subst rr ra. reflexivity.
Qed.

Lemma compute_ok py P get_index args res ws :
  compute py P get_index args = Ok (res, ws) ->
  exists st,
    rows_loop py P args (get_index (args_add_columns args)) (args_vcf args) 0 initial = Ok st /\
    ws = warnings st /\
    res = selection (args_type args)
            (omap (emitted py P args (get_index (args_add_columns args))) (variants args)).
Proof.
  unfold compute. intros H.
  destruct (rows_loop _ _ _ _ _ _ _) as [st|] eqn:E; [|discriminate H].
  cbn [mbind result_bind] in H.
  pose proof (rows_loop_pairs _ _ _ _ _ E) as Hst.
  rewrite Hst, select_pairs in H. cbn [mbind result_bind warnings] in H.
  injection H as <- <-. exists st. auto.
Qed.

Lemma emitted_lengths py P args cols_id v r a :
  emitted py P args cols_id v = Some (r, a) ->
  Py.len (sequence r) = args_size args /\ Py.len (sequence a) = args_size args.
Proof.
  rewrite emitted_eq.
  destruct (guards _ _ _ _ _ _ _ _ _ _) as [[[pos w] col_txt]|]; [|discriminate].
  destruct (accepted args w) eqn:Hacc; [|discriminate].
  intros H. injection H as <- <-. cbn.
  unfold accepted in Hacc. apply andb_true_iff in Hacc. lia.
Qed.

Lemma selection_Forall (Q : SequenceRecord -> Prop) ty pairs :
  Forall (fun p => Q (fst p) /\ Q (snd p)) pairs -> Forall Q (selection ty pairs).
Proof.
  intros H. destruct ty; cbn.
  - induction H as [|p l [_ Hp] _ IH]; constructor; assumption.
  - induction H as [|p l [Hp _] _ IH]; constructor; assumption.
  - induction H as [|p l [Hp Hq] _ IH]; cbn; [constructor|].
    constructor; [exact Hp|]. constructor; [exact Hq | exact IH].
Qed.

Lemma omap_Forall {A C} (f : A -> option C) (Q : C -> Prop) (l : list A) :
  (forall x y, f x = Some y -> Q y) -> Forall Q (omap f l).
Proof.
  intros H. induction l as [|x l IH]; cbn; [constructor|].
  destruct (f x) eqn:E; [constructor; eauto | exact IH].
Qed.

(** C1.  An allele pair adds records only when both of its windows are
    exactly [K] long, and then one REF record carrying the reference
    window and one ALT record carrying the alternate window; hence every
    record that [compute] returns has a sequence of length [K]. *)
Theorem emitted_sequences_have_length_K (py : Py.Text) (P : SequenceProvider)
    (get_index : list string -> list Z) (args : Args) :
  (forall num_row fields cols_id chr position ref alt st st',
     allele_body py P args num_row fields cols_id chr position ref alt st = Ok st' ->
     exists pos w,
       Py.int py position = Some pos /\
       windows P args chr alt (coordinates args ref alt pos) = Ok w /\
       ((Py.len (ref_seq w) = args_size args /\ Py.len (alt_seq w) = args_size args /\
         exists r a, sequence r = ref_seq w /\ sequence a = alt_seq w /\
                     res_ref st' = res_ref st ++ [r] /\ res_alt st' = res_alt st ++ [a])
        \/
        (~ (Py.len (ref_seq w) = args_size args /\ Py.len (alt_seq w) = args_size args) /\
         res_ref st' = res_ref st /\ res_alt st' = res_alt st))) /\
  (forall res ws,
     compute py P get_index args = Ok (res, ws) ->
     Forall (fun r => Py.len (sequence r) = args_size args) res).
Proof.
  split.
  - intros num_row fields cols_id chr position ref alt st st' H.
    rewrite allele_body_eq in H.
    destruct (guards _ _ _ _ _ _ _ _ _ _) as [[[pos w] col_txt]|] eqn:G; [|discriminate H].
    injection H as <-. apply guards_ok in G. destruct G as (Hp & Hw & _).
    exists pos, w. split; [exact Hp|]. split; [exact Hw|].
    pose proof (verdict_records args num_row chr position ref alt
                  (coordinates args ref alt pos) w col_txt st) as V.
    cbv zeta in V. destruct (accepted args w) eqn:Hacc.
    + left. unfold accepted in Hacc. apply andb_true_iff in Hacc.
      split; [lia|]. split; [lia|].
      exists (fst (records_of chr position ref alt w col_txt)),
             (snd (records_of chr position ref alt w col_txt)).
      cbn [records_of fst snd sequence]. tauto.
    + right. split; [|exact V].
      unfold accepted in Hacc. apply andb_false_iff in Hacc. lia.
  - intros res ws H. apply compute_ok in H. destruct H as (st & _ & _ & ->).
    apply selection_Forall, omap_Forall.
    intros v [r a] E. cbn [fst snd]. eapply emitted_lengths. exact E.
Qed.

Lemma emitted_sequences_have_length_K_witness :
  Forall (fun r => Py.len (sequence r) = 31)
    [ {| header := ">chr1_50_C_T_ref "; sequence := "ACGTACACGTACGTACACGTACGTACACGTA" |};
      {| header := ">chr1_50_C_T_alt "; sequence := "ACGTACACGTACGTATACGTACGTACACGTA" |} ].
Proof.
  exact (proj2 (emitted_sequences_have_length_K Py.ascii_text
                  (genome_provider example_genome) no_columns
                  (example_args 31 Both [vcf_line ["chr1"; "50"; "."; "C"; "T"]]))
               _ [] eq_refl).
Defined.

(** C8.  The records that [compute] returns are those of the variants
    in input order (rows in order, the alternate alleles of a row in the
    order listed), each variant contributing its own records; under
    [both] a variant contributes its REF record immediately followed by
    its ALT record. *)
Theorem output_preserves_input_order (py : Py.Text) (P : SequenceProvider)
    (get_index : list string -> list Z) (args : Args) res ws :
  compute py P get_index args = Ok (res, ws) ->
  res = match args_type args with
        | Alt => map snd (omap (emitted py P args (get_index (args_add_columns args)))
                               (variants args))
        | Ref => map fst (omap (emitted py P args (get_index (args_add_columns args)))
                               (variants args))
        | Both => flat_map (fun p => [fst p; snd p])
                    (omap (emitted py P args (get_index (args_add_columns args)))
                          (variants args))
        end.
Proof.
  intros H. apply compute_ok in H. destruct H as (st & _ & _ & ->).
  unfold selection. destruct (args_type args); reflexivity.
Qed.

Lemma output_preserves_input_order_witness :
  [ {| header := ">chr1_50_C_T_ref "; sequence := "TACAC" |};
    {| header := ">chr1_50_C_T_alt "; sequence := "TATAC" |};
    {| header := ">chr1_50_C_G_ref "; sequence := "TACAC" |};
    {| header := ">chr1_50_C_G_alt "; sequence := "TAGAC" |};
    {| header := ">chr1_42_C_A_ref "; sequence := "CACGT" |};
    {| header := ">chr1_42_C_A_alt "; sequence := "CAAGT" |} ]
  = flat_map (fun p => [fst p; snd p])
      (omap (emitted Py.ascii_text (genome_provider example_genome)
               (example_args 5 Both [vcf_line ["chr1"; "50"; "."; "C"; "T,G"];
                                     vcf_line ["chr1"; "42"; "."; "C"; "A"]]) [])
            (variants (example_args 5 Both [vcf_line ["chr1"; "50"; "."; "C"; "T,G"];
                                            vcf_line ["chr1"; "42"; "."; "C"; "A"]]))).
Proof.
  exact (output_preserves_input_order Py.ascii_text (genome_provider example_genome)
           no_columns
           (example_args 5 Both [vcf_line ["chr1"; "50"; "."; "C"; "T,G"];
                                 vcf_line ["chr1"; "42"; "."; "C"; "A"]])
           _ [] eq_refl).
Defined.

(** C10.  Every allele pair leaves both lists alone or appends one
    record to each; so after the rows of any input the two lists have
    the same length, every index of the one is an index of the other,
    and the interleaving loop of [both] runs to its end. *)
Theorem ref_and_alt_lists_pair_up (py : Py.Text) (P : SequenceProvider)
    (args : Args) (cols_id : list Z) :
  (forall num_row fields chr position ref alt s s',
     allele_body py P args num_row fields cols_id chr position ref alt s = Ok s' ->
     (res_ref s' = res_ref s /\ res_alt s' = res_alt s) \/
     (exists r a, res_ref s' = res_ref s ++ [r] /\ res_alt s' = res_alt s ++ [a])) /\
  (forall vcf st,
     rows_loop py P args cols_id vcf 0 initial = Ok st ->
     length (res_ref st) = length (res_alt st) /\
     (forall i, (i < length (res_alt st))%nat ->
                is_Some (res_ref st !! i) /\ is_Some (res_alt st !! i)) /\
     exists res,
       for_each (both_body (res_ref st) (res_alt st)) (seq 0 (length (res_alt st))) []
       = Ok res /\
       length res = (2 * length (res_alt st))%nat).
Proof.
  split.
  - intros num_row fields chr position ref alt s s' H.
    rewrite allele_body_eq in H.
    destruct (guards _ _ _ _ _ _ _ _ _ _) as [[[pos w] col_txt]|]; [|discriminate H].
    injection H as <-.
    pose proof (verdict_records args num_row chr position ref alt
                  (coordinates args ref alt pos) w col_txt s) as V.
    cbv zeta in V. destruct (accepted args w); [right; eauto | left; exact V].
  - intros vcf st H. apply rows_loop_records in H. cbn [res_ref res_alt initial app] in H.
    destruct H as [Hr Ha].
    set (pairs := omap (emitted py P args cols_id) (variants_from vcf 0)) in *.
    assert (Hlen : length (res_ref st) = length (res_alt st))
      by (rewrite Hr, Ha, !length_map; reflexivity).
    split; [exact Hlen|]. split.
    + intros i Hi. split; apply lookup_lt_is_Some; lia.
    + rewrite Hr, Ha, length_map.
      exists ([] ++ flat_map (fun p => [fst p; snd p]) pairs).
      split; [exact (both_loop pairs [] [])|].
      cbn [app]. clear. induction pairs as [|p l IH]; cbn; [reflexivity|].
      rewrite IH. lia.
Qed.

Lemma ref_and_alt_lists_pair_up_witness :
  length (res_ref {| res_ref := [ {| header := ">chr1_50_C_T_ref "; sequence := "TACAC" |} ];
                     res_alt := [ {| header := ">chr1_50_C_T_alt "; sequence := "TATAC" |} ];
                     warnings := [ LargeAlteration "chr1" "42" "C" "AAAAAA"; AltLarger 6 5 2 ] |})
  = length (res_alt {| res_ref := [ {| header := ">chr1_50_C_T_ref "; sequence := "TACAC" |} ];
                       res_alt := [ {| header := ">chr1_50_C_T_alt "; sequence := "TATAC" |} ];
                       warnings := [ LargeAlteration "chr1" "42" "C" "AAAAAA";
                                     AltLarger 6 5 2 ] |}).
Proof.
  exact (proj1 (proj2 (ref_and_alt_lists_pair_up Py.ascii_text
                         (genome_provider example_genome) (example_args 5 Both []) [])
                      [vcf_line ["chr1"; "50"; "."; "C"; "T"];
                       vcf_line ["chr1"; "42"; "."; "C"; "AAAAAA"]]
                      _ eq_refl)).
Defined.

(** ** [write] and [main] *)

Lemma selection_nil ty pairs : selection ty pairs = [] <-> pairs = [].
Proof.
  split; [|intros ->; destruct ty; reflexivity].
  destruct ty, pairs; cbn; congruence.
Qed.

Lemma omap_nil {A C} (f : A -> option C) (l : list A) :
  omap f l = [] <-> Forall (fun x => f x = None) l.
Proof.
  induction l as [|x l IH]; cbn; [split; [constructor | reflexivity]|].
  destruct (f x) eqn:E; split; intros H.
  - discriminate H.
  - inversion H; congruence.
  - constructor; [exact E | now apply IH].
  - inversion H; now apply IH.
Qed.

Lemma write_nothing args ws w :
  write args [] ws w
  = {| files := <[output_path args := EmptyString]> (files w); console := console w |}.
Proof. reflexivity. Qed.

Lemma write_something args r rs ws w :
  files (write args (r :: rs) ws w) !! output_path args
  = Some (Py.join (String Py.LF EmptyString) (map render (r :: rs))
          +:+ String Py.LF EmptyString).
Proof.
  unfold write. destruct ws; cbn [files]; now rewrite lookup_insert_eq.
Qed.

Lemma main_ok py P get_index args w w' :
  main py P get_index args w = Ok w' ->
  exists res ws,
    vcf_ctrl py P (args_vcf args) = Ok () /\
    compute py P get_index args = Ok (res, ws) /\ w' = write args res ws w.
Proof.
  unfold main. intros H.
  destruct (vcf_ctrl py P (args_vcf args)) as [[]|]; [|discriminate H].
  cbn [mbind result_bind] in H.
  destruct (compute py P get_index args) as [[res ws]|]; [|discriminate H].
  cbn [mbind result_bind] in H. injection H as <-.
  exists res, ws. auto.
Qed.

(** C7.  After a run that ends normally: no record was returned exactly
    when every variant of the input was rejected (none, if the input has
    no variants); in that case the file at the output path is empty and
    nothing is printed; otherwise the file holds the rendered records,
    one per two lines. *)
Theorem output_written_only_when_accepted (py : Py.Text) (P : SequenceProvider)
    (get_index : list string -> list Z) (args : Args) (w w' : World) :
  main py P get_index args w = Ok w' ->
  exists res ws,
    compute py P get_index args = Ok (res, ws) /\
    (res = [] <->
     Forall (fun v => emitted py P args (get_index (args_add_columns args)) v = None)
            (variants args)) /\
    (res = [] ->
     files w' !! output_path args = Some EmptyString /\ console w' = console w) /\
    (res <> [] ->
     files w' !! output_path args
     = Some (Py.join (String Py.LF EmptyString) (map render res) +:+ String Py.LF EmptyString)).
Proof.
  intros H. apply main_ok in H. destruct H as (res & ws & _ & Hc & ->).
  exists res, ws. split; [exact Hc|].
  apply compute_ok in Hc. destruct Hc as (st & _ & _ & Hres).
  split; [|split].
  - rewrite Hres, selection_nil. apply omap_nil.
  - intros ->. rewrite write_nothing. cbn [files console].
    now rewrite lookup_insert_eq.
  - intros Hne. destruct res as [|r rs]; [congruence|]. apply write_something.
Qed.

Lemma output_written_only_when_accepted_witness :
  files {| files := <["calls-vcf2seq.fa" := EmptyString]> ∅; console := [] |}
    !! output_path (example_args 5 Alt [vcf_line ["chr1"; "42"; "."; "C"; "AAAAAA"]])
  = Some EmptyString.
Proof.
  destruct (output_written_only_when_accepted Py.ascii_text
              (genome_provider example_genome) no_columns
              (example_args 5 Alt [vcf_line ["chr1"; "42"; "."; "C"; "AAAAAA"]])
              empty_world
              {| files := <["calls-vcf2seq.fa" := EmptyString]> ∅; console := [] |}
              eq_refl)
    as (res & ws & Hc & _ & Hempty & _).
  vm_compute in Hc. injection Hc as <- <-.
  exact (proj1 (Hempty eq_refl)).
Defined.

(** ** Alternate alleles longer than the window *)

Lemma genome_provider_empty g : empty_when_nonpositive (genome_provider g).
Proof.
  intros c start stop s Hle. cbn. destruct (assoc c g) as [sq|]; [|discriminate].
  cbn. intros H. injection H as <-. unfold slice. cbv zeta.
  destruct (Z.ltb_spec (Z.max 0 start) (Z.min (Py.len sq) stop)); [lia | reflexivity].
Qed.

Lemma app_empty_r (s : string) : s +:+ EmptyString = s.
Proof.
  induction s as [|a s IH]; [reflexivity|].
  change (String a (s +:+ EmptyString) = String a s). now rewrite IH.
Qed.

Lemma corr_of_non_blank_le_1 args allele :
  String.eqb allele (args_blank args) = false -> corr_of args allele <= 1.
Proof.
  intros H. unfold corr_of. rewrite H.
  destruct (Z.odd (args_size args)), (Z.odd (Py.len allele)); cbn; lia.
Qed.

Lemma verdict_rejected_larger args num_row chr position ref alt k w col_txt st :
  Py.len (alt_seq w) > args_size args ->
  Z.max (Py.len ref) (Py.len alt) > args_size args ->
  let st' := verdict args num_row chr position ref alt k w col_txt st in
  res_ref st' = res_ref st /\ res_alt st' = res_alt st /\
  exists mid,
    warnings st' = warnings st ++ LargeAlteration chr position ref alt :: mid
                   ++ [AltLarger (Py.len (alt_seq w)) (args_size args) num_row] /\
    (mid = [] \/ mid = [RefMismatch num_row chr (ps_ref2 k + 1) ref (seq_ref2 w)]).
Proof.
  intros Hbig Hmax. unfold verdict, accepted.
  replace (args_size args =? Py.len (alt_seq w)) with false by (symmetry; lia).
  rewrite andb_false_r.
  replace (Py.len (alt_seq w) >? args_size args) with true
    by (symmetry; apply Z.gtb_lt; lia).
  replace (Z.max (Py.len ref) (Py.len alt) >? args_size args) with true
    by (symmetry; apply Z.gtb_lt; lia).
  destruct (Py.truthy (l_ref2 k) && negb (String.eqb ref (seq_ref2 w))); cbn.
  - repeat split.
    exists [RefMismatch num_row chr (ps_ref2 k + 1) ref (seq_ref2 w)].
    split; [now rewrite <- !app_assoc | now right].
  - repeat split. exists []. split; [now rewrite <- !app_assoc | now left].
Qed.

(** C5.  When the effective length of the alternate allele exceeds [K]
    ([K] not negative, and the provider returning nothing for an
    interval of zero or negative length), both alternate flank lengths
    are non-positive,
    both flanks are empty and the alternate window is the whole
    alternate allele; the pair adds no record, and its warnings are the
    large-alteration warning, then possibly the REF mismatch warning,
    then the warning that quotes the length of the alternate window and
    [K]. *)
Theorem oversized_alternate_rejected (py : Py.Text) (P : SequenceProvider) (args : Args)
    (num_row : Z) (fields : list string) (cols_id : list Z)
    (chr position ref alt : string) (st st' : State) :
  empty_when_nonpositive P ->
  0 <= args_size args ->
  args_size args < effective_length (args_blank args) alt ->
  allele_body py P args num_row fields cols_id chr position ref alt st = Ok st' ->
  exists pos w,
    Py.int py position = Some pos /\
    windows P args chr alt (coordinates args ref alt pos) = Ok w /\
    l_alt1 (coordinates args ref alt pos) < 0 /\
    l_alt3 (coordinates args ref alt pos) <= 0 /\
    seq_alt1 w = EmptyString /\ seq_alt3 w = EmptyString /\
    alt_seq w = alt /\
    res_ref st' = res_ref st /\ res_alt st' = res_alt st /\
    exists mid,
      warnings st' = warnings st ++ LargeAlteration chr position ref alt :: mid
                     ++ [AltLarger (Py.len alt) (args_size args) num_row] /\
      (mid = [] \/ mid = [RefMismatch num_row chr pos ref (seq_ref2 w)]).
Proof.
  intros HP HK Hlong H.
  rewrite allele_body_eq in H.
  destruct (guards _ _ _ _ _ _ _ _ _ _) as [[[pos w] col_txt]|] eqn:G; [|discriminate H].
  injection H as <-. apply guards_ok in G. destruct G as (Hp & Hw & _).
  exists pos, w. split; [exact Hp|]. split; [exact Hw|].
  assert (HB : String.eqb alt (args_blank args) = false).
  { unfold effective_length in Hlong.
    destruct (String.eqb alt (args_blank args)); [lia | reflexivity]. }
  assert (Hlen : args_size args < Py.len alt).
  { unfold effective_length in Hlong. now rewrite HB in Hlong. }
  destruct (coordinates_fields args ref alt pos)
    as (_ & _ & _ & _ & _ & Ha1 & _ & Ha3 & Hp2 & _ & _ & Hs1 & Hs3 & He3).
  pose proof (corr_of_non_blank_le_1 args alt HB) as Hcorr.
  assert (Hhalf : (args_size args - effective_length (args_blank args) alt) / 2 < 0)
    by (apply Z.div_lt_upper_bound; lia).
  assert (H1 : l_alt1 (coordinates args ref alt pos) < 0) by (rewrite Ha1; exact Hhalf).
  assert (H3 : l_alt3 (coordinates args ref alt pos) <= 0) by (rewrite Ha3; lia).
  split; [exact H1|]. split; [exact H3|].
  pose proof (windows_ok _ _ _ _ _ _ Hw) as (_ & F1 & F3 & _ & Hseq).
  assert (E1 : seq_alt1 w = EmptyString).
  { eapply HP; [|exact F1]. rewrite Hs1, Hp2. lia. }
  assert (E3 : seq_alt3 w = EmptyString).
  { eapply HP; [|exact F3]. rewrite He3, Hs3. rewrite Ha3 in H3. lia. }
  assert (Ealt : alt_seq w = alt).
  { rewrite Hseq, E1, E3, HB. cbn. apply app_empty_r. }
  split; [exact E1|]. split; [exact E3|]. split; [exact Ealt|].
  pose proof (verdict_rejected_larger args num_row chr position ref alt
                (coordinates args ref alt pos) w col_txt st) as V.
  rewrite Ealt, Hp2 in V. replace (pos - 1 + 1) with pos in V by lia.
  apply V; lia.
Qed.

Lemma oversized_alternate_rejected_witness :
  exists mid,
    [LargeAlteration "chr1" "42" "C" "AAAAAA"; AltLarger 6 5 1]
    = [] ++ LargeAlteration "chr1" "42" "C" "AAAAAA" :: mid ++ [AltLarger 6 5 1].
Proof.
  destruct (oversized_alternate_rejected Py.ascii_text (genome_provider example_genome)
              (example_args 5 Alt []) 1 ["chr1"; "42"; "."; "C"; "AAAAAA"] []
              "chr1" "42" "C" "AAAAAA" initial
              {| res_ref := []; res_alt := [];
                 warnings := [LargeAlteration "chr1" "42" "C" "AAAAAA"; AltLarger 6 5 1] |}
              (genome_provider_empty example_genome)
              ltac:(vm_compute; discriminate) eq_refl eq_refl)
    as (pos & w & _ & _ & _ & _ & _ & _ & _ & _ & _ & mid & Hw & _).
  exists mid. exact Hw.
Defined.

(** ** Positions that are not numbers *)

(** C6, as stated, fails: a second row whose position ["1_0"] is not
    made of digits (the test that [vcf_ctrl] applies to the first row)
    is converted by [int] to 10 and processed; the run ends normally. *)
Lemma later_non_digit_position_is_processed :
  is_variant_row (vcf_line ["chr1"; "1_0"; "."; "C"; "T"]) = true /\
  position_column (vcf_line ["chr1"; "1_0"; "."; "C"; "T"]) = Some "1_0" /\
  Py.isdigit Py.ascii_text "1_0" = false /\
  compute Py.ascii_text (genome_provider example_genome) no_columns
    (example_args 5 Alt [vcf_line ["chr1"; "50"; "."; "C"; "T"];
                         vcf_line ["chr1"; "1_0"; "."; "C"; "T"]])
  = Ok ([ {| header := ">chr1_50_C_T_alt "; sequence := "TATAC" |};
          {| header := ">chr1_1_0_C_T_alt "; sequence := "TATAC" |} ], []) /\
  exit_status
    (main Py.ascii_text (genome_provider example_genome) no_columns
       (example_args 5 Alt [vcf_line ["chr1"; "50"; "."; "C"; "T"];
                            vcf_line ["chr1"; "1_0"; "."; "C"; "T"]])
       empty_world) = 0.
Proof. repeat split; vm_compute; reflexivity. Qed.

Lemma vcf_ctrl_first_row py P pre row rest chr pos id ref alt more :
  Forall (fun r => Py.startswith "#" r = true) pre ->
  Py.startswith "#" row = false ->
  Py.split Py.TAB (Py.rstrip Py.LF row) = chr :: pos :: id :: ref :: alt :: more ->
  Py.isdigit py pos = false ->
  vcf_ctrl py P (pre ++ row :: rest) = Failed (ErrorVcfFormat pos).
Proof.
  intros Hpre Hrow Hsplit Hdig.
  induction Hpre as [|r pre Hr _ IH]; cbn [app vcf_ctrl].
  - now rewrite Hrow, Hsplit, Hdig.
  - now rewrite Hr.
Qed.

Lemma guards_int_none py P args num_row fields cols_id chr position ref alt :
  Py.int py position = None ->
  exists f, guards py P args num_row fields cols_id chr position ref alt = Failed f.
Proof.
  intros Hint. unfold guards.
  destruct (Py.first_char ref) as [ref0|]; [|eexists; reflexivity].
  destruct (Py.first_char alt) as [alt0|]; [|eexists; reflexivity].
  cbn [or_raise mbind result_bind].
  destruct (for_each _ _ ()) as [[]|]; [|eexists; reflexivity].
  rewrite Hint. eexists; reflexivity.
Qed.

Lemma row_body_int_none py P args cols_id num_row row pos st :
  is_variant_row row = true ->
  position_column row = Some pos ->
  Py.int py pos = None ->
  exists f, row_body py P args cols_id num_row row st = Failed f.
Proof.
  unfold is_variant_row, position_column, row_body. intros Hrow Hpos Hint.
  apply negb_true_iff in Hrow. rewrite Hrow.
  destruct (Py.split Py.TAB (Py.rstrip Py.LF row))
    as [|chr [|p [|id [|ref [|alts rest]]]]]; try (eexists; reflexivity).
  injection Hpos as ->. cbn [take firstn].
  destruct (match args_add_columns args with [] => _ | _ :: _ => _ end) as [[]|];
    [|eexists; reflexivity].
  cbn [mbind result_bind].
  destruct (Py.split "," alts) as [|alt alts'] eqn:Es; [now apply split_not_nil in Es|].
  cbn [for_each]. rewrite allele_body_eq.
  destruct (guards_int_none py P args num_row
              (chr :: pos :: id :: ref :: alts :: rest) cols_id chr pos ref alt Hint)
    as [f ->].
  eexists; reflexivity.
Qed.

Lemma rows_loop_int_none py P args cols_id vcf row pos :
  In row vcf ->
  is_variant_row row = true ->
  position_column row = Some pos ->
  Py.int py pos = None ->
  forall num_row st, exists f, rows_loop py P args cols_id vcf num_row st = Failed f.
Proof.
  intros Hin Hrow Hpos Hint.
  induction vcf as [|r vcf IH]; [destruct Hin|].
  intros num_row st. cbn [rows_loop].
  destruct (row_body py P args cols_id (num_row + 1) r st) as [st1|f] eqn:E;
    [|eexists; reflexivity].
  cbn [mbind result_bind].
  destruct Hin as [->|Hin]; [|now apply IH].
  destruct (row_body_int_none py P args cols_id (num_row + 1) row pos st Hrow Hpos Hint)
    as [f Hf].
  congruence.
Qed.

(** C6, amended.  When the position of the first row that is not a
    comment is not made of digits, the run ends with the ErrorVcfFormat
    message; and when any row that [compute] does not skip has a
    position that [int] rejects, the run ends early, with exit status
    1. *)
Theorem non_numeric_position_is_fatal (py : Py.Text) (P : SequenceProvider)
    (get_index : list string -> list Z) (args : Args) (w : World) :
  (forall pre row rest chr pos id ref alt more,
     args_vcf args = pre ++ row :: rest ->
     Forall (fun r => Py.startswith "#" r = true) pre ->
     Py.startswith "#" row = false ->
     Py.split Py.TAB (Py.rstrip Py.LF row) = chr :: pos :: id :: ref :: alt :: more ->
     Py.isdigit py pos = false ->
     main py P get_index args w = Failed (ErrorVcfFormat pos)) /\
  (forall row pos,
     In row (args_vcf args) ->
     is_variant_row row = true ->
     position_column row = Some pos ->
     Py.int py pos = None ->
     (exists f, main py P get_index args w = Failed f) /\
     exit_status (main py P get_index args w) = 1).
Proof.
  split.
  - intros pre row rest chr pos id ref alt more Hvcf Hpre Hrow Hsplit Hdig.
    unfold main. rewrite Hvcf.
    now rewrite (vcf_ctrl_first_row py P pre row rest chr pos id ref alt more).
  - intros row pos Hin Hrow Hpos Hint.
    assert (H : exists f, main py P get_index args w = Failed f).
    { unfold main. destruct (vcf_ctrl py P (args_vcf args)) as [[]|f];
        [|eexists; reflexivity].
      cbn [mbind result_bind]. unfold compute.
      destruct (rows_loop_int_none py P args (get_index (args_add_columns args))
                  (args_vcf args) row pos Hin Hrow Hpos Hint 0 initial) as [f ->].
      eexists; reflexivity. }
    split; [exact H|]. destruct H as [f ->]. reflexivity.
Qed.

Lemma non_numeric_position_is_fatal_witness :
  main Py.ascii_text (genome_provider example_genome) no_columns
    (example_args 5 Alt [vcf_line ["chr1"; "abc"; "."; "C"; "T"]]) empty_world
  = Failed (ErrorVcfFormat "abc") /\
  exit_status
    (main Py.ascii_text (genome_provider example_genome) no_columns
       (example_args 5 Alt [vcf_line ["chr1"; "50"; "."; "C"; "T"];
                            vcf_line ["chr1"; "abc"; "."; "C"; "T"]]) empty_world) = 1.
Proof.
  split.
  - exact (proj1 (non_numeric_position_is_fatal Py.ascii_text
                    (genome_provider example_genome) no_columns
                    (example_args 5 Alt [vcf_line ["chr1"; "abc"; "."; "C"; "T"]])
                    empty_world)
                 [] (vcf_line ["chr1"; "abc"; "."; "C"; "T"]) []
                 "chr1" "abc" "." "C" "T" []
                 eq_refl (List.Forall_nil _) eq_refl eq_refl eq_refl).
  - exact (proj2 (proj2 (non_numeric_position_is_fatal Py.ascii_text
                    (genome_provider example_genome) no_columns
                    (example_args 5 Alt [vcf_line ["chr1"; "50"; "."; "C"; "T"];
                                         vcf_line ["chr1"; "abc"; "."; "C"; "T"]])
                    empty_world)
                 (vcf_line ["chr1"; "abc"; "."; "C"; "T"]) "abc"
                 (or_intror (or_introl eq_refl)) eq_refl eq_refl eq_refl)).
Defined.

(** ** Slices of a chromosome *)

Lemma take_app (n m : nat) : forall s,
  Py.take (n + m) s = Py.take n s +:+ Py.take m (Py.drop n s).
Proof.
  induction n as [|n IH]; intros s; [reflexivity|].
  destruct s as [|a s]; [destruct m; reflexivity|].
  change (String a (Py.take (n + m) s)
          = String a (Py.take n s +:+ Py.take m (Py.drop n s))).
  now rewrite IH.
Qed.

Lemma drop_drop (n m : nat) : forall s, Py.drop (n + m) s = Py.drop m (Py.drop n s).
Proof.
  induction n as [|n IH]; intros s; [reflexivity|].
  destruct s as [|a s]; [destruct m; reflexivity|]. exact (IH s).
Qed.

Lemma length_take (n : nat) : forall s,
  String.length (Py.take n s) = Nat.min n (String.length s).
Proof.
  induction n as [|n IH]; intros s; [reflexivity|].
  destruct s as [|a s]; [reflexivity|]. cbn. now rewrite IH.
Qed.

Lemma length_drop (n : nat) : forall s,
  String.length (Py.drop n s) = (String.length s - n)%nat.
Proof.
  induction n as [|n IH]; intros s; [symmetry; apply Nat.sub_0_r|].
  destruct s as [|a s]; [reflexivity|]. exact (IH s).
Qed.

Lemma slice_len (s : string) (a b : Z) :
  Py.len (slice s a b) = Z.max 0 (Z.min (Py.len s) b - Z.max 0 a).
Proof.
  unfold slice. cbv zeta.
  destruct (Z.ltb_spec (Z.max 0 a) (Z.min (Py.len s) b)) as [Hlt|Hge].
  - unfold Py.len in *. rewrite length_take, length_drop. lia.
  - change (Py.len EmptyString) with 0. lia.
Qed.

Lemma slice_in_range (s : string) (a b : Z) :
  0 <= a -> a <= b -> b <= Py.len s ->
  slice s a b = Py.take (Z.to_nat (b - a)) (Py.drop (Z.to_nat a) s).
Proof.
  intros Ha Hab Hb. unfold slice. cbv zeta.
  rewrite Z.max_r, Z.min_r by lia.
  destruct (Z.ltb_spec a b) as [Hlt|Hge]; [reflexivity|].
  replace (b - a) with 0 by lia. reflexivity.
Qed.

Lemma slice_split (s : string) (a b c : Z) :
  0 <= a -> a <= b -> b <= c -> c <= Py.len s ->
  slice s a c = slice s a b +:+ slice s b c.
Proof.
  intros Ha Hab Hbc Hc.
  rewrite !slice_in_range by lia.
  replace (Z.to_nat (c - a)) with (Z.to_nat (b - a) + Z.to_nat (c - b))%nat by lia.
  rewrite take_app, <- drop_drop.
  replace (Z.to_nat a + Z.to_nat (b - a))%nat with (Z.to_nat b) by lia.
  reflexivity.
Qed.

Lemma slice_one (s : string) (p : Z) :
  0 <= p -> p < Py.len s -> exists c, slice s p (p + 1) = String c EmptyString.
Proof.
  intros Hp Hlt. rewrite slice_in_range by lia.
  replace (p + 1 - p) with 1 by lia.
  pose proof (length_drop (Z.to_nat p) s) as Hd.
  destruct (Py.drop (Z.to_nat p) s) as [|c rest].
  - unfold Py.len in Hlt. cbn in Hd. lia.
  - exists c. reflexivity.
Qed.

Lemma genome_fetch_some g chr a b s :
  fetch (genome_provider g) chr a b = Some s ->
  exists sq, assoc chr g = Some sq /\ s = slice sq a b.
Proof.
  cbn. destruct (assoc chr g) as [sq|]; [|discriminate].
  cbn. intros H. injection H as <-. eauto.
Qed.

(** C9.  For a substitution (REF and ALT one character each, neither
    the blank marker) whose pair is accepted, the genome being a list of
    named sequences read through [slice]: the two windows have the
    same flank lengths and the same flank coordinates, and they are the
    same left flank [L] and right flank [R] around one base, which in
    the REF window is the base of the genome at the anchor position and
    in the ALT window the alternate base. *)
Theorem substitution_windows (g : list (string * string)) (args : Args)
    (chr : string) (r a : ascii) (pos : Z) (w : Windows) :
  String.eqb (String r EmptyString) (args_blank args) = false ->
  String.eqb (String a EmptyString) (args_blank args) = false ->
  windows (genome_provider g) args chr (String a EmptyString)
    (coordinates args (String r EmptyString) (String a EmptyString) pos) = Ok w ->
  accepted args w = true ->
  (l_alt1 (coordinates args (String r EmptyString) (String a EmptyString) pos)
   = l_ref1 (coordinates args (String r EmptyString) (String a EmptyString) pos) /\
   l_alt3 (coordinates args (String r EmptyString) (String a EmptyString) pos)
   = l_ref3 (coordinates args (String r EmptyString) (String a EmptyString) pos) /\
   ps_alt1 (coordinates args (String r EmptyString) (String a EmptyString) pos)
   = ps_ref1 (coordinates args (String r EmptyString) (String a EmptyString) pos) /\
   pe_alt3 (coordinates args (String r EmptyString) (String a EmptyString) pos)
   = pe_ref3 (coordinates args (String r EmptyString) (String a EmptyString) pos)) /\
  exists (L R : string) (c : ascii),
    Py.len L = l_ref1 (coordinates args (String r EmptyString) (String a EmptyString) pos) /\
    Py.len R = l_ref3 (coordinates args (String r EmptyString) (String a EmptyString) pos) /\
    fetch (genome_provider g) chr (pos - 1) pos = Some (String c EmptyString) /\
    ref_seq w = L +:+ String c R /\
    alt_seq w = L +:+ String a R.
Proof.
  intros HrB HaB Hw Hacc.
  set (ref := String r EmptyString) in *. set (alt := String a EmptyString) in *.
  destruct (coordinates_fields args ref alt pos)
    as (_ & _ & _ & _ & Hr1 & Ha1 & Hr3 & Ha3 & Hp2 & Hs1 & He3 & Hsa1 & Hsa3 & Hea3).
  pose proof (sum_non_blank args ref HrB) as Hsum.
  assert (Er : effective_length (args_blank args) ref = 1)
    by (unfold effective_length; now rewrite HrB).
  assert (Ea : effective_length (args_blank args) alt = 1)
    by (unfold effective_length; now rewrite HaB).
  assert (Ec : corr_of args alt = corr_of args ref)
    by (unfold corr_of; now rewrite HrB, HaB).
  rewrite Er in *. rewrite Ea in *. rewrite Ec in *.
  split; [repeat split; congruence|].
  apply windows_ok in Hw. destruct Hw as (F0 & F1 & F3 & _ & Hseq).
  rewrite HaB in Hseq.
  apply genome_fetch_some in F0, F1, F3.
  destruct F0 as (sq & Hsq & E0). destruct F1 as (sq1 & Hsq1 & E1).
  destruct F3 as (sq3 & Hsq3 & E3).
  assert (sq1 = sq) by congruence. assert (sq3 = sq) by congruence. subst sq1 sq3.
  unfold accepted in Hacc. apply andb_true_iff in Hacc. destruct Hacc as [HlenR HlenA].
  apply Z.eqb_eq in HlenR, HlenA.
  set (l1 := (args_size args - 1) / 2) in *.
  set (cr := corr_of args ref) in *.
  rewrite Hs1, He3 in E0. rewrite Hsa1, Hp2 in E1. rewrite Hsa3, Hea3 in E3.
  assert (HK : 1 <= args_size args).
  { rewrite HlenA, Hseq, !len_app.
    pose proof (len_nonneg (seq_alt1 w)). pose proof (len_nonneg (seq_alt3 w)).
    change (Py.len alt) with 1. lia. }
  assert (Hl1 : 0 <= l1) by (apply Z.div_pos; lia).
  assert (Hcr : 0 <= cr).
  { unfold cr, corr_of. rewrite HrB.
    destruct (Z.odd (args_size args)), (Z.odd (Py.len ref)); cbn; lia. }
  assert (Hrange : 0 <= pos - 1 - l1 /\ pos - 1 + 1 + (l1 + cr) <= Py.len sq).
  { pose proof (slice_len sq (pos - 1 - l1) (pos - 1 + 1 + (l1 + cr))) as Hl.
    rewrite <- E0, HlenR in Hl. lia. }
  destruct Hrange as [Hlo Hhi].
  destruct (slice_one sq (pos - 1)) as [c Hc]; [lia | lia |].
  exists (seq_alt1 w), (seq_alt3 w), c.
  rewrite Hr1, Hr3.
  split; [rewrite E1, slice_len; lia|].
  split; [rewrite E3, slice_len; lia|].
  split.
  { cbn. rewrite Hsq. cbn. replace pos with (pos - 1 + 1) at 2 by lia. now rewrite Hc. }
  split.
  - rewrite E0, E1, E3.
    rewrite (slice_split sq (pos - 1 - l1) (pos - 1) (pos - 1 + 1 + (l1 + cr))) by lia.
    rewrite (slice_split sq (pos - 1) (pos - 1 + 1) (pos - 1 + 1 + (l1 + cr))) by lia.
    rewrite Hc. reflexivity.
  - rewrite Hseq. reflexivity.
Qed.

Lemma substitution_windows_witness :
  exists (L R : string) (c : ascii),
    Py.len L = 15 /\ Py.len R = 15 /\
    fetch (genome_provider example_genome) "chr1" (50 - 1) 50 = Some (String c EmptyString) /\
    "ACGTACACGTACGTACACGTACGTACACGTA" = L +:+ String c R /\
    "ACGTACACGTACGTATACGTACGTACACGTA" = L +:+ String "T" R.
Proof.
  exact (proj2 (substitution_windows example_genome (example_args 31 Alt []) "chr1"
                  "C" "T" 50
                  {| ref_seq := "ACGTACACGTACGTACACGTACGTACACGTA";
                     seq_alt1 := "ACGTACACGTACGTA"; seq_alt3 := "ACGTACGTACACGTA";
                     alt_seq := "ACGTACACGTACGTATACGTACGTACACGTA"; seq_ref2 := "C" |}
                  eq_refl eq_refl eq_refl eq_refl)).
Defined.

(** * Further properties of the program *)

(** ** [vcf_ctrl] *)

(** X1.  [vcf_ctrl] skips the leading comment lines and then looks at
    one row only: what follows the first row that is not a comment has
    no influence on its outcome. *)
Theorem vcf_ctrl_reads_one_row (py : Py.Text) (P : SequenceProvider)
    (pre : list string) (row : string) (rest : list string) :
  Forall (fun r => Py.startswith "#" r = true) pre ->
  Py.startswith "#" row = false ->
  vcf_ctrl py P (pre ++ row :: rest) = vcf_ctrl py P [row].
Proof.
  intros Hpre Hrow.
  induction Hpre as [|r pre Hr _ IH]; cbn [app vcf_ctrl].
  - now rewrite Hrow.
  - rewrite Hr. exact IH.
Qed.

Lemma vcf_ctrl_reads_one_row_witness :
  vcf_ctrl Py.ascii_text (genome_provider example_genome)
    (["##fileformat=VCFv4.2"; "#CHROM POS ID REF ALT"]
     ++ vcf_line ["chr1"; "50"; "."; "C"; "T"] :: ["not a variant row"])
  = vcf_ctrl Py.ascii_text (genome_provider example_genome)
      [vcf_line ["chr1"; "50"; "."; "C"; "T"]].
Proof.
  apply vcf_ctrl_reads_one_row; [|reflexivity].
  repeat constructor.
Defined.

Lemma vcf_ctrl_comments py P fh :
  Forall (fun r => Py.startswith "#" r = true) fh -> vcf_ctrl py P fh = Ok ().
Proof.
  induction 1 as [|r fh Hr _ IH]; cbn [vcf_ctrl]; [reflexivity|]. now rewrite Hr.
Qed.

(** X2.  [vcf_ctrl] lets the run go on exactly when every line is a
    comment (an empty file included), or the first line that is not a
    comment has at least five columns, a position made of digits and a
    chromosome that the genome knows. *)
Theorem vcf_ctrl_passes_iff (py : Py.Text) (P : SequenceProvider) (fh : list string) :
  vcf_ctrl py P fh = Ok () <->
  (Forall (fun r => Py.startswith "#" r = true) fh \/
   exists pre row rest chr pos id ref alt more,
     fh = pre ++ row :: rest /\
     Forall (fun r => Py.startswith "#" r = true) pre /\
     Py.startswith "#" row = false /\
     Py.split Py.TAB (Py.rstrip Py.LF row) = chr :: pos :: id :: ref :: alt :: more /\
     Py.isdigit py pos = true /\
     contains P chr = true).
Proof.
  split.
  - induction fh as [|r fh IH]; intros H; [left; constructor|].
    cbn [vcf_ctrl] in H. destruct (Py.startswith "#" r) eqn:Hr.
    + destruct (IH H) as [Hall|(pre & row & rest & chr & pos & id & ref & alt & more
                                 & -> & Hpre & Hrest)].
      * left. constructor; assumption.
      * right. exists (r :: pre), row, rest, chr, pos, id, ref, alt, more.
        split; [reflexivity|]. split; [constructor; assumption | exact Hrest].
    + right.
      destruct (Py.split Py.TAB (Py.rstrip Py.LF r))
        as [|chr [|pos [|id [|ref [|alt more]]]]] eqn:Es; try discriminate H.
      destruct (Py.isdigit py pos) eqn:Hd; [|discriminate H].
      destruct (contains P chr) eqn:Hc;
        [|cbn [negb] in H; destruct (first_key P); discriminate H].
      exists [], r, fh, chr, pos, id, ref, alt, more.
      repeat split; try assumption. constructor.
  - intros [Hall|(pre & row & rest & chr & pos & id & ref & alt & more
                  & -> & Hpre & Hrow & Hs & Hd & Hc)].
    + now apply vcf_ctrl_comments.
    + induction Hpre as [|r pre Hr _ IH]; cbn [app vcf_ctrl].
      * now rewrite Hrow, Hs, Hd, Hc.
      * now rewrite Hr.
Qed.

Lemma vcf_ctrl_passes_iff_witness :
  vcf_ctrl Py.ascii_text (genome_provider example_genome)
    ["#CHROM POS ID REF ALT"; vcf_line ["chr1"; "50"; "."; "C"; "T"]] = Ok ().
Proof.
  apply vcf_ctrl_passes_iff. right.
  exists ["#CHROM POS ID REF ALT"], (vcf_line ["chr1"; "50"; "."; "C"; "T"]), [],
         "chr1", "50", ".", "C", "T", [].
  repeat split. repeat constructor.
Defined.

(** X3.  When the first line that is not a comment has a position made
    of digits and a chromosome that the genome does not know, the run
    ends with the ErrorChr message, which quotes that chromosome and
    the first chromosome of the genome; with a genome that has no
    chromosome at all, building the message raises StopIteration. *)
Theorem vcf_ctrl_unknown_chromosome (py : Py.Text) (P : SequenceProvider)
    (pre : list string) (row : string) (rest : list string)
    (chr pos id ref alt : string) (more : list string) :
  Forall (fun r => Py.startswith "#" r = true) pre ->
  Py.startswith "#" row = false ->
  Py.split Py.TAB (Py.rstrip Py.LF row) = chr :: pos :: id :: ref :: alt :: more ->
  Py.isdigit py pos = true ->
  contains P chr = false ->
  vcf_ctrl py P (pre ++ row :: rest)
  = match first_key P with
    | Some k => Failed (ErrorChr chr k)
    | None => Failed (Uncaught StopIteration)
    end.
Proof.
  intros Hpre Hrow Hs Hd Hc.
  induction Hpre as [|r pre Hr _ IH]; cbn [app vcf_ctrl].
  - now rewrite Hrow, Hs, Hd, Hc.
  - now rewrite Hr.
Qed.

Lemma vcf_ctrl_unknown_chromosome_witness :
  vcf_ctrl Py.ascii_text (genome_provider example_genome)
    ([] ++ vcf_line ["1"; "50"; "."; "C"; "T"] :: [])
  = Failed (ErrorChr "1" "chr1").
Proof.
  exact (vcf_ctrl_unknown_chromosome Py.ascii_text (genome_provider example_genome)
           [] (vcf_line ["1"; "50"; "."; "C"; "T"]) [] "1" "50" "." "C" "T" []
           (List.Forall_nil _) eq_refl eq_refl eq_refl eq_refl).
Defined.

(** ** Rows that end the run *)

Lemma for_each_doomed {A S} (body : A -> S -> result S) (l : list A) (x : A) :
  In x l ->
  (forall st, exists f, body x st = Failed f) ->
  forall st, exists f, for_each body l st = Failed f.
Proof.
  intros Hin Hx. induction l as [|y l IH]; [destruct Hin|].
  intros st. cbn [for_each].
  destruct (body y st) as [st1|f] eqn:E; [|eexists; reflexivity].
  cbn [mbind result_bind].
  destruct Hin as [->|Hin]; [|now apply IH].
  destruct (Hx st) as [f Hf]. congruence.
Qed.

Lemma rows_loop_doomed py P args cols_id vcf row :
  In row vcf ->
  (forall num_row st, exists f, row_body py P args cols_id num_row row st = Failed f) ->
  forall num_row st, exists f, rows_loop py P args cols_id vcf num_row st = Failed f.
Proof.
  intros Hin Hrow. induction vcf as [|r vcf IH]; [destruct Hin|].
  intros num_row st. cbn [rows_loop].
  destruct (row_body py P args cols_id (num_row + 1) r st) as [st1|f] eqn:E;
    [|eexists; reflexivity].
  cbn [mbind result_bind].
  destruct Hin as [->|Hin]; [|now apply IH].
  destruct (Hrow (num_row + 1) st) as [f Hf]. congruence.
Qed.

Lemma main_doomed py P get_index args w row :
  In row (args_vcf args) ->
  (forall num_row st,
     exists f, row_body py P args (get_index (args_add_columns args)) num_row row st
               = Failed f) ->
  exists f, main py P get_index args w = Failed f.
Proof.
  intros Hin Hrow. unfold main.
  destruct (vcf_ctrl py P (args_vcf args)) as [[]|f]; [|eexists; reflexivity].
  cbn [mbind result_bind]. unfold compute.
  destruct (rows_loop_doomed py P args _ _ row Hin Hrow 0 initial) as [f ->].
  eexists; reflexivity.
Qed.

Lemma row_body_doomed_allele py P args cols_id row chr pos id ref alts more alt :
  is_variant_row row = true ->
  Py.split Py.TAB (Py.rstrip Py.LF row) = chr :: pos :: id :: ref :: alts :: more ->
  In alt (Py.split "," alts) ->
  (forall num_row fields st,
     exists f, allele_body py P args num_row fields cols_id chr pos ref alt st = Failed f) ->
  forall num_row st, exists f, row_body py P args cols_id num_row row st = Failed f.
Proof.
  unfold is_variant_row, row_body. intros Hrow Hs Hin Halt num_row st.
  apply negb_true_iff in Hrow. rewrite Hrow, Hs. cbn [take firstn].
  destruct (match args_add_columns args with [] => _ | _ :: _ => _ end) as [[]|];
    [|eexists; reflexivity].
  cbn [mbind result_bind].
  apply (for_each_doomed _ _ alt Hin). intros st'. apply Halt.
Qed.

(** X4.  A row that [compute] does not skip and that has fewer than
    five tab-separated columns raises ValueError where it is unpacked
    (line 73), and a run over an input that holds such a row ends
    early. *)
Theorem short_row_is_fatal (py : Py.Text) (P : SequenceProvider)
    (get_index : list string -> list Z) (args : Args) (w : World) (row : string) :
  is_variant_row row = true ->
  (length (Py.split Py.TAB (Py.rstrip Py.LF row)) < 5)%nat ->
  (forall cols_id num_row st,
     row_body py P args cols_id num_row row st = Failed (Uncaught ValueError)) /\
  (In row (args_vcf args) -> exists f, main py P get_index args w = Failed f).
Proof.
  intros Hrow Hlen.
  assert (H : forall cols_id num_row st,
             row_body py P args cols_id num_row row st = Failed (Uncaught ValueError)).
  { intros cols_id num_row st. unfold row_body, is_variant_row in *.
    apply negb_true_iff in Hrow. rewrite Hrow.
    destruct (Py.split Py.TAB (Py.rstrip Py.LF row))
      as [|chr [|pos [|id [|ref [|alts more]]]]]; try reflexivity.
    cbn in Hlen. lia. }
  split; [exact H|].
  intros Hin. apply (main_doomed py P get_index args w row Hin).
  intros num_row st. eexists. apply H.
Qed.

Lemma short_row_is_fatal_witness :
  exists f,
    main Py.ascii_text (genome_provider example_genome) no_columns
      (example_args 5 Alt [vcf_line ["chr1"; "50"; "."; "C"; "T"];
                           vcf_line ["chr1"; "42"; "C"; "A"]]) empty_world
    = Failed f.
Proof.
  apply (proj2 (short_row_is_fatal Py.ascii_text (genome_provider example_genome)
                  no_columns
                  (example_args 5 Alt [vcf_line ["chr1"; "50"; "."; "C"; "T"];
                                       vcf_line ["chr1"; "42"; "C"; "A"]])
                  empty_world (vcf_line ["chr1"; "42"; "C"; "A"])
                  eq_refl ltac:(vm_compute; lia))).
  right. left. reflexivity.
Defined.

(** X5.  An allele pair whose REF is the empty string, or whose ALT is
    (an ALT column that ends in a comma, say), raises IndexError at
    [ref[0]] / [alt[0]] (line 92); a run over an input that holds such a
    pair in a row it does not skip ends early. *)
Theorem empty_allele_is_fatal (py : Py.Text) (P : SequenceProvider)
    (get_index : list string -> list Z) (args : Args) (w : World)
    (row chr pos id ref alts : string) (more : list string) (alt : string) :
  ref = EmptyString \/ alt = EmptyString ->
  (forall num_row fields cols_id st,
     allele_body py P args num_row fields cols_id chr pos ref alt st
     = Failed (Uncaught IndexError)) /\
  (In row (args_vcf args) ->
   is_variant_row row = true ->
   Py.split Py.TAB (Py.rstrip Py.LF row) = chr :: pos :: id :: ref :: alts :: more ->
   In alt (Py.split "," alts) ->
   exists f, main py P get_index args w = Failed f).
Proof.
  intros Hempty.
  assert (H : forall num_row fields cols_id st,
             allele_body py P args num_row fields cols_id chr pos ref alt st
             = Failed (Uncaught IndexError)).
  { intros num_row fields cols_id st. unfold allele_body.
    destruct Hempty as [-> | ->]; [reflexivity|].
    destruct (Py.first_char ref); reflexivity. }
  split; [exact H|].
  intros Hin Hrow Hs Halt. apply (main_doomed py P get_index args w row Hin).
  apply (row_body_doomed_allele py P args _ row chr pos id ref alts more alt Hrow Hs Halt).
  intros num_row fields st. eexists. apply H.
Qed.

Lemma empty_allele_is_fatal_witness :
  exists f,
    main Py.ascii_text (genome_provider example_genome) no_columns
      (example_args 5 Alt [vcf_line ["chr1"; "50"; "."; "C"; "T,"]]) empty_world
    = Failed f.
Proof.
  apply (proj2 (empty_allele_is_fatal Py.ascii_text (genome_provider example_genome)
                  no_columns (example_args 5 Alt [vcf_line ["chr1"; "50"; "."; "C"; "T,"]])
                  empty_world (vcf_line ["chr1"; "50"; "."; "C"; "T,"])
                  "chr1" "50" "." "C" "T," [] EmptyString (or_intror eq_refl))).
  - left. reflexivity.
  - reflexivity.
  - reflexivity.
  - right. left. reflexivity.
Defined.

(** X6.  The first-base test of lines 91-96 looks at the first
    character of REF, then at the first character of ALT: the first of
    the two that is none of A, T, C, G and the blank marker ends the run
    with the "REF base ... is not valid" message, which quotes that
    character and the line number, whatever the position and the
    chromosome are. *)
Theorem invalid_first_base_is_fatal (py : Py.Text) (P : SequenceProvider) (args : Args)
    (num_row : Z) (fields : list string) (cols_id : list Z)
    (chr position : string) (c d : ascii) (ref' alt' : string) (st : State) :
  (in_NUC args (String c EmptyString) = false ->
   allele_body py P args num_row fields cols_id chr position
     (String c ref') (String d alt') st
   = Failed (ErrorRefBase (String c EmptyString) num_row)) /\
  (in_NUC args (String c EmptyString) = true ->
   in_NUC args (String d EmptyString) = false ->
   allele_body py P args num_row fields cols_id chr position
     (String c ref') (String d alt') st
   = Failed (ErrorRefBase (String d EmptyString) num_row)).
Proof.
  unfold in_NUC, allele_body. cbv zeta.
  cbn [Py.first_char or_raise mbind result_bind for_each]. unfold check_nuc.
  split.
  - intros Hc. now rewrite Hc.
  - intros Hc Hd. rewrite Hc. cbn [negb mbind result_bind]. now rewrite Hd.
Qed.

Lemma invalid_first_base_is_fatal_witness :
  allele_body Py.ascii_text (genome_provider example_genome) (example_args 5 Alt [])
    7 [] [] "chr1" "50" "C" "N" initial
  = Failed (ErrorRefBase "N" 7).
Proof.
  exact (proj2 (invalid_first_base_is_fatal Py.ascii_text (genome_provider example_genome)
                  (example_args 5 Alt []) 7 [] [] "chr1" "50" "C" "N"
                  EmptyString EmptyString initial)
               eq_refl eq_refl).
Defined.



(** ** Every variant is accounted for *)

Lemma verdict_measure args num_row chr position ref alt k w col_txt st :
  let st' := verdict args num_row chr position ref alt k w col_txt st in
  (length (res_alt st') + length (List.filter is_rejection (warnings st')))%nat
  = S (length (res_alt st) + length (List.filter is_rejection (warnings st)))%nat.
Proof.
  unfold verdict.
  destruct (accepted args w); [|destruct (Py.len (alt_seq w) >? args_size args)];
    destruct (Z.max (Py.len ref) (Py.len alt) >? args_size args);
    destruct (Py.truthy (l_ref2 k) && negb (String.eqb ref (seq_ref2 w)));
    cbn [warn accept res_alt warnings];
    rewrite ?List.filter_app, ?length_app; cbn; lia.
Qed.

Lemma alleles_measure py P args num_row fields cols_id chr pos ref alts :
  forall st st',
  for_each (allele_body py P args num_row fields cols_id chr pos ref) alts st = Ok st' ->
  (length (res_alt st') + length (List.filter is_rejection (warnings st')))%nat
  = (length (res_alt st) + length (List.filter is_rejection (warnings st))
     + length alts)%nat.
Proof.
  induction alts as [|alt alts IH]; intros st st' H.
  - injection H as <-. cbn. lia.
  - cbn [for_each] in H. rewrite allele_body_eq in H.
    destruct (guards _ _ _ _ _ _ _ _ _ _) as [[[p w] col_txt]|]; [|discriminate H].
    cbn [mbind result_bind] in H. apply IH in H. rewrite H.
    pose proof (verdict_measure args num_row chr pos ref alt
                  (coordinates args ref alt p) w col_txt st) as V.
    cbv zeta in V. rewrite V. cbn [length]. lia.
Qed.

Lemma row_body_measure py P args cols_id num_row row st st' :
  row_body py P args cols_id num_row row st = Ok st' ->
  (length (res_alt st') + length (List.filter is_rejection (warnings st')))%nat
  = (length (res_alt st) + length (List.filter is_rejection (warnings st))
     + length (row_variants num_row row))%nat.
Proof.
  unfold row_body, row_variants, is_variant_row. intros H.
  destruct (String.eqb (Py.rstrip Py.LF row) EmptyString || Py.startswith "#" row).
  - injection H as <-. cbn. lia.
  - cbn [negb].
    destruct (take 5 (Py.split Py.TAB (Py.rstrip Py.LF row)))
      as [|chr [|pos [|id [|ref [|alts [|x rest]]]]]]; try discriminate H.
    destruct (match args_add_columns args with [] => _ | _ :: _ => _ end) as [[]|];
      [|discriminate H].
    cbn [mbind result_bind] in H.
    apply alleles_measure in H. rewrite H, length_map. reflexivity.
Qed.

Lemma rows_loop_measure py P args cols_id vcf : forall num_row st st',
  rows_loop py P args cols_id vcf num_row st = Ok st' ->
  (length (res_alt st') + length (List.filter is_rejection (warnings st')))%nat
  = (length (res_alt st) + length (List.filter is_rejection (warnings st))
     + length (variants_from vcf num_row))%nat.
Proof.
  induction vcf as [|row vcf IH]; intros num_row st st' H.
  - injection H as <-. cbn. lia.
  - cbn [rows_loop] in H.
    destruct (row_body _ _ _ _ _ row st) as [st1|] eqn:E1; [|discriminate H].
    cbn [mbind result_bind] in H.
    apply row_body_measure in E1. apply IH in H.
    rewrite H, E1. cbn [variants_from]. rewrite length_app. lia.
Qed.

(** X8.  In a run of [compute] that reaches its end, every variant of
    the input is either accepted or leaves exactly one of the two
    "ignored" warnings of lines 162-165: the number of variants is the
    number of accepted pairs plus the number of those warnings. *)
Theorem every_variant_accepted_or_warned (py : Py.Text) (P : SequenceProvider)
    (get_index : list string -> list Z) (args : Args) res ws :
  compute py P get_index args = Ok (res, ws) ->
  length (variants args)
  = (length (omap (emitted py P args (get_index (args_add_columns args))) (variants args))
     + length (List.filter is_rejection ws))%nat.
Proof.
  intros H. apply compute_ok in H. destruct H as (st & Hloop & -> & _).
  pose proof (rows_loop_measure _ _ _ _ _ _ _ _ Hloop) as M.
  cbn [initial res_alt warnings List.filter length Nat.add] in M.
  apply rows_loop_records in Hloop. destruct Hloop as [_ Ha].
  cbn [initial res_alt app] in Ha. rewrite Ha, length_map in M.
  unfold variants. lia.
Qed.

Lemma every_variant_accepted_or_warned_witness :
  length (variants (example_args 5 Alt [vcf_line ["chr1"; "50"; "."; "C"; "T,AAAAAA"];
                                        vcf_line ["chr1"; "2"; "."; "C"; "A"]]))
  = (length (omap (emitted Py.ascii_text (genome_provider example_genome)
                     (example_args 5 Alt [vcf_line ["chr1"; "50"; "."; "C"; "T,AAAAAA"];
                                          vcf_line ["chr1"; "2"; "."; "C"; "A"]]) [])
                  (variants (example_args 5 Alt
                               [vcf_line ["chr1"; "50"; "."; "C"; "T,AAAAAA"];
                                vcf_line ["chr1"; "2"; "."; "C"; "A"]])))
     + length (List.filter is_rejection
                 [LargeAlteration "chr1" "50" "C" "AAAAAA"; AltLarger 6 5 1;
                  SizeNotCorrect 2 4 5]))%nat.
Proof.
  exact (every_variant_accepted_or_warned Py.ascii_text (genome_provider example_genome)
           no_columns
           (example_args 5 Alt [vcf_line ["chr1"; "50"; "."; "C"; "T,AAAAAA"];
                                vcf_line ["chr1"; "2"; "."; "C"; "A"]])
           _ _ eq_refl).
Defined.

(** ** The three output selections *)

Lemma rows_loop_with_type py P args ty cols_id vcf : forall num_row st,
  rows_loop py P (with_type ty args) cols_id vcf num_row st
  = rows_loop py P args cols_id vcf num_row st.
Proof.
  induction vcf as [|row vcf IH]; intros num_row st; [reflexivity|].
  cbn [rows_loop].
  change (row_body py P (with_type ty args) cols_id (num_row + 1) row st)
    with (row_body py P args cols_id (num_row + 1) row st).
  destruct (row_body py P args cols_id (num_row + 1) row st); [|reflexivity].
  cbn [mbind result_bind]. apply IH.
Qed.

(** X9.  [--type] has no part in the processing of the rows: when the
    run reaches its end under one selection it does so under all three,
    with the same warnings, and the three outputs are views of one list
    of accepted pairs: the REF records, the ALT records, and under
    [both] the two interleaved. *)
Theorem output_types_agree (py : Py.Text) (P : SequenceProvider)
    (get_index : list string -> list Z) (args : Args) (ty : OutputType) res ws :
  compute py P get_index (with_type ty args) = Ok (res, ws) ->
  exists pairs : list (SequenceRecord * SequenceRecord),
    compute py P get_index (with_type Ref args) = Ok (map fst pairs, ws) /\
    compute py P get_index (with_type Alt args) = Ok (map snd pairs, ws) /\
    compute py P get_index (with_type Both args)
    = Ok (flat_map (fun p => [fst p; snd p]) pairs, ws).
Proof.
  intros H. apply compute_ok in H. destruct H as (st & Hloop & -> & _).
  cbn [with_type args_add_columns args_vcf] in Hloop.
  rewrite rows_loop_with_type in Hloop.
  exists (omap (emitted py P args (get_index (args_add_columns args))) (variants args)).
  pose proof (rows_loop_pairs py P args _ st Hloop) as Hst.
  assert (Hall : forall ty',
            compute py P get_index (with_type ty' args)
            = Ok (selection ty'
                    (omap (emitted py P args (get_index (args_add_columns args)))
                          (variants args)), warnings st)).
  { intros ty'. unfold compute. cbn [with_type args_add_columns args_vcf].
    rewrite rows_loop_with_type, Hloop. cbn [mbind result_bind].
    rewrite Hst at 1. rewrite select_pairs. reflexivity. }
  split; [exact (Hall Ref)|]. split; [exact (Hall Alt) | exact (Hall Both)].
Qed.

Lemma output_types_agree_witness :
  exists pairs : list (SequenceRecord * SequenceRecord),
    compute Py.ascii_text (genome_provider example_genome) no_columns
      (with_type Ref (example_args 5 Alt [vcf_line ["chr1"; "50"; "."; "C"; "T"]]))
    = Ok (map fst pairs, []) /\
    compute Py.ascii_text (genome_provider example_genome) no_columns
      (with_type Alt (example_args 5 Alt [vcf_line ["chr1"; "50"; "."; "C"; "T"]]))
    = Ok (map snd pairs, []) /\
    compute Py.ascii_text (genome_provider example_genome) no_columns
      (with_type Both (example_args 5 Alt [vcf_line ["chr1"; "50"; "."; "C"; "T"]]))
    = Ok (flat_map (fun p => [fst p; snd p]) pairs, []).
Proof.
  exact (output_types_agree Py.ascii_text (genome_provider example_genome) no_columns
           (example_args 5 Alt [vcf_line ["chr1"; "50"; "."; "C"; "T"]]) Alt
           _ [] eq_refl).
Defined.

(** ** Accepted windows and the chromosome *)

Lemma corr_of_nonneg args allele : 0 <= corr_of args allele.
Proof.
  unfold corr_of.
  destruct (Z.odd (args_size args)), (Z.odd (Py.len allele)),
           (String.eqb allele (args_blank args)); cbn; lia.
Qed.

Lemma effective_length_nonneg B allele : 0 <= effective_length B allele.
Proof.
  unfold effective_length. pose proof (len_nonneg allele).
  destruct (String.eqb allele B); lia.
Qed.

(** X10.  With a one-character blank marker and a positive [K], the
    REF window of an accepted pair whose reference allele is not longer
    than [K] lies inside the chromosome, and it is made of [l_ref1] bases
    of left flank, the bases that the genome holds where the reference
    allele is said to be (the segment compared with REF at line 151),
    and [l_ref3] bases of right flank. *)
Theorem reference_window_layout (g : list (string * string)) (args : Args)
    (chr ref alt : string) (pos : Z) (w : Windows) :
  String.length (args_blank args) = 1%nat ->
  0 < args_size args ->
  effective_length (args_blank args) ref <= args_size args ->
  windows (genome_provider g) args chr alt (coordinates args ref alt pos) = Ok w ->
  accepted args w = true ->
  exists (sq L R : string),
    assoc chr g = Some sq /\
    0 <= ps_ref1 (coordinates args ref alt pos) /\
    pe_ref3 (coordinates args ref alt pos) <= Py.len sq /\
    ref_seq w = L +:+ seq_ref2 w +:+ R /\
    Py.len L = l_ref1 (coordinates args ref alt pos) /\
    Py.len (seq_ref2 w) = effective_length (args_blank args) ref /\
    Py.len R = l_ref3 (coordinates args ref alt pos).
Proof.
  intros HB HK Hfit Hw Hacc.
  destruct (coordinates_fields args ref alt pos)
    as (_ & _ & Hr2 & _ & Hr1 & _ & Hr3 & _ & Hp2 & Hs1 & He3 & _).
  pose proof (sum_single_char_blank args ref HB) as Hsum.
  pose proof (corr_of_nonneg args ref) as Hcorr.
  pose proof (effective_length_nonneg (args_blank args) ref) as Hl2.
  set (l2 := effective_length (args_blank args) ref) in *.
  set (l1 := (args_size args - l2) / 2) in *.
  set (cr := corr_of args ref) in *.
  assert (Hl1 : 0 <= l1) by (apply Z.div_pos; lia).
  apply windows_ok in Hw. destruct Hw as (F0 & _ & _ & F4 & _).
  apply genome_fetch_some in F0, F4.
  destruct F0 as (sq & Hsq & E0). destruct F4 as (sq4 & Hsq4 & E4).
  assert (sq4 = sq) by congruence. subst sq4.
  unfold accepted in Hacc. apply andb_true_iff in Hacc. destruct Hacc as [HlenR _].
  apply Z.eqb_eq in HlenR.
  rewrite Hs1, He3 in E0. rewrite Hp2, Hr2 in E4.
  assert (Hrange : 0 <= pos - 1 - l1 /\ pos - 1 + l2 + (l1 + cr) <= Py.len sq).
  { pose proof (slice_len sq (pos - 1 - l1) (pos - 1 + l2 + (l1 + cr))) as Hl.
    rewrite <- E0, HlenR in Hl. lia. }
  destruct Hrange as [Hlo Hhi].
  exists sq, (slice sq (pos - 1 - l1) (pos - 1)),
         (slice sq (pos - 1 + l2) (pos - 1 + l2 + (l1 + cr))).
  rewrite Hs1, He3, Hr1, Hr3.
  split; [exact Hsq|]. split; [exact Hlo|]. split; [exact Hhi|].
  split.
  - rewrite E0, E4.
    rewrite (slice_split sq (pos - 1 - l1) (pos - 1) (pos - 1 + l2 + (l1 + cr))) by lia.
    rewrite (slice_split sq (pos - 1) (pos - 1 + l2) (pos - 1 + l2 + (l1 + cr))) by lia.
    reflexivity.
  - rewrite E4, !slice_len. lia.
Qed.

Lemma reference_window_layout_witness :
  exists (sq L R : string),
    assoc "chr1" example_genome = Some sq /\
    0 <= ps_ref1 (coordinates (example_args 5 Alt []) "CA" "." 50) /\
    pe_ref3 (coordinates (example_args 5 Alt []) "CA" "." 50) <= Py.len sq /\
    "ACACG" = L +:+ "CA" +:+ R /\
    Py.len L = l_ref1 (coordinates (example_args 5 Alt []) "CA" "." 50) /\
    Py.len "CA" = effective_length "." "CA" /\
    Py.len R = l_ref3 (coordinates (example_args 5 Alt []) "CA" "." 50).
Proof.
  exact (reference_window_layout example_genome (example_args 5 Alt []) "chr1" "CA" "."
           50 {| ref_seq := "ACACG"; seq_alt1 := "TA"; seq_alt3 := "CGT";
                 alt_seq := "TACGT"; seq_ref2 := "CA" |}
           eq_refl eq_refl ltac:(vm_compute; discriminate) eq_refl eq_refl).
Defined.

(** X11.  With a one-character blank marker, the ALT window of an
    accepted pair whose alternate allele is not longer than [K] has both
    of its flanks at their full computed lengths [l_alt1] and [l_alt3]:
    a flank cut short by an end of the chromosome is never made up for,
    the pair is dropped instead. *)
Theorem alternate_flanks_are_whole (g : list (string * string)) (args : Args)
    (chr ref alt : string) (pos : Z) (w : Windows) :
  String.length (args_blank args) = 1%nat ->
  effective_length (args_blank args) alt <= args_size args ->
  windows (genome_provider g) args chr alt (coordinates args ref alt pos) = Ok w ->
  accepted args w = true ->
  Py.len (seq_alt1 w) = l_alt1 (coordinates args ref alt pos) /\
  Py.len (seq_alt3 w) = l_alt3 (coordinates args ref alt pos).
Proof.
  intros HB Hfit Hw Hacc.
  destruct (coordinates_fields args ref alt pos)
    as (_ & _ & _ & _ & _ & Ha1 & _ & Ha3 & Hp2 & _ & _ & Hs1 & Hs3 & He3).
  pose proof (sum_single_char_blank args alt HB) as Hsum.
  pose proof (corr_of_nonneg args alt) as Hcorr.
  pose proof (effective_length_nonneg (args_blank args) alt) as Hl2.
  set (l2 := effective_length (args_blank args) alt) in *.
  set (l1 := (args_size args - l2) / 2) in *.
  set (ca := corr_of args alt) in *.
  assert (Hl1 : 0 <= l1) by (apply Z.div_pos; lia).
  apply windows_ok in Hw. destruct Hw as (_ & F1 & F3 & _ & Hseq).
  apply genome_fetch_some in F1, F3.
  destruct F1 as (sq & Hsq & E1). destruct F3 as (sq3 & Hsq3 & E3).
  assert (sq3 = sq) by congruence. subst sq3.
  unfold accepted in Hacc. apply andb_true_iff in Hacc. destruct Hacc as [_ HlenA].
  apply Z.eqb_eq in HlenA.
  rewrite Hseq, !len_app in HlenA.
  assert (Hmid : Py.len (if String.eqb alt (args_blank args) then EmptyString else alt)
                 = l2).
  { unfold l2, effective_length. destruct (String.eqb alt (args_blank args)); reflexivity. }
  rewrite Hmid in HlenA.
  rewrite Hs1, Hp2 in E1. rewrite Hs3, He3 in E3.
  pose proof (slice_len sq (pos - 1 - l1) (pos - 1)) as B1. rewrite <- E1 in B1.
  pose proof (slice_len sq (pos - 1 + effective_length (args_blank args) ref)
                (pos - 1 + effective_length (args_blank args) ref + (l1 + ca))) as B3.
  rewrite <- E3 in B3.
  rewrite Ha1, Ha3. lia.
Qed.

Lemma alternate_flanks_are_whole_witness :
  Py.len "TA" = l_alt1 (coordinates (example_args 5 Alt []) "CA" "." 50) /\
  Py.len "CGT" = l_alt3 (coordinates (example_args 5 Alt []) "CA" "." 50).
Proof.
  exact (alternate_flanks_are_whole example_genome (example_args 5 Alt []) "chr1" "CA" "."
           50 {| ref_seq := "ACACG"; seq_alt1 := "TA"; seq_alt3 := "CGT";
                 alt_seq := "TACGT"; seq_ref2 := "CA" |}
           eq_refl ltac:(vm_compute; discriminate) eq_refl eq_refl).
Defined.

(** ** What [write] leaves behind *)

Lemma str_app_assoc (a b c : string) : (a +:+ b) +:+ c = a +:+ (b +:+ c).
Proof.
  induction a as [|x a IH]; [reflexivity|].
  change (String x ((a +:+ b) +:+ c) = String x (a +:+ (b +:+ c))). now rewrite IH.
Qed.

Lemma str_cons_app (a : ascii) (s t : string) : String a s +:+ t = String a (s +:+ t).
Proof. reflexivity. Qed.

Lemma join_render_lines (rs : list SequenceRecord) : forall r,
  Py.join (String Py.LF EmptyString) (map render (r :: rs)) +:+ String Py.LF EmptyString
  = concat_strings (map record_lines (r :: rs)).
Proof.
  induction rs as [|r' rs IH]; intros r.
  - cbn [map Py.join concat_strings]. unfold render, record_lines.
    rewrite app_empty_r, str_app_assoc. reflexivity.
  - change (map render (r :: r' :: rs)) with (render r :: map render (r' :: rs)).
    change (map record_lines (r :: r' :: rs))
      with (record_lines r :: map record_lines (r' :: rs)).
    cbn [concat_strings]. rewrite <- IH.
    change (Py.join (String Py.LF EmptyString) (render r :: map render (r' :: rs)))
      with (render r +:+ String Py.LF EmptyString
            +:+ Py.join (String Py.LF EmptyString) (map render (r' :: rs))).
    unfold render at 1, record_lines.
    rewrite !str_app_assoc, !str_cons_app, !str_app_assoc. reflexivity.
Qed.

(** X12.  [write] changes one file only, the one at the output path,
    and what that file held before is lost: afterwards it holds, for
    each record in turn, the header line and the sequence line, each
    ended by a newline (nothing at all when there is no record). *)
Theorem write_replaces_output_file (args : Args) (results : list SequenceRecord)
    (ws : list Warning) (w : World) :
  files (write args results ws w)
  = <[output_path args := concat_strings (map record_lines results)]> (files w).
Proof.
  unfold write. destruct results as [|r rs]; [reflexivity|].
  rewrite join_render_lines.
  destruct ws; cbn [files]; apply insert_insert_eq.
Qed.

Lemma rejected_variants_leave_warnings py P args cols_id vcf st :
  rows_loop py P args cols_id vcf 0 initial = Ok st ->
  res_alt st = [] ->
  variants_from vcf 0 <> [] ->
  warnings st <> [].
Proof.
  intros Hloop Hnone Hsome.
  apply rows_loop_measure in Hloop.
  cbn [initial res_alt warnings List.filter length Nat.add] in Hloop.
  rewrite Hnone in Hloop. cbn [length Nat.add] in Hloop.
  destruct (variants_from vcf 0); [congruence|].
  destruct (warnings st); [discriminate Hloop | discriminate].
Qed.

(** X13.  A run that reaches its end prints its warnings, between the
    two colour codes, only when there is at least one warning and at
    least one record was written; when every variant of a non-empty
    input was rejected there are warnings, and none of them is
    printed. *)
Theorem warnings_printed_only_with_records (py : Py.Text) (P : SequenceProvider)
    (get_index : list string -> list Z) (args : Args) (w w' : World) :
  main py P get_index args w = Ok w' ->
  exists res ws,
    compute py P get_index args = Ok (res, ws) /\
    console w' = console w ++ match res, ws with
                              | _ :: _, _ :: _ =>
                                  [Colour PURPLE; WarningLines ws; Colour END]
                              | _, _ => []
                              end /\
    (res = [] -> variants args <> [] -> ws <> [] /\ console w' = console w).
Proof.
  intros H. apply main_ok in H. destruct H as (res & ws & _ & Hc & ->).
  exists res, ws. split; [exact Hc|].
  assert (Hconsole : console (write args res ws w)
                     = console w ++ match res, ws with
                                    | _ :: _, _ :: _ =>
                                        [Colour PURPLE; WarningLines ws; Colour END]
                                    | _, _ => []
                                    end).
  { unfold write. destruct res, ws; cbn [console]; rewrite ?app_nil_r; reflexivity. }
  split; [exact Hconsole|].
  intros -> Hvars. rewrite Hconsole, app_nil_r. split; [|reflexivity].
  apply compute_ok in Hc. destruct Hc as (st & Hloop & -> & Hres).
  symmetry in Hres. apply selection_nil in Hres.
  apply (rejected_variants_leave_warnings py P args _ _ st Hloop); [|exact Hvars].
  apply rows_loop_records in Hloop. destruct Hloop as [_ Ha].
  cbn [initial res_alt app] in Ha. unfold variants in Hres. now rewrite Ha, Hres.
Qed.

Lemma warnings_printed_only_with_records_witness :
  [LargeAlteration "chr1" "42" "C" "AAAAAA"; AltLarger 6 5 1] <> [] /\
  console {| files := <["calls-vcf2seq.fa" := EmptyString]> ∅; console := [] |}
  = console empty_world.
Proof.
  destruct (warnings_printed_only_with_records Py.ascii_text
              (genome_provider example_genome) no_columns
              (example_args 5 Alt [vcf_line ["chr1"; "42"; "."; "C"; "AAAAAA"]])
              empty_world
              {| files := <["calls-vcf2seq.fa" := EmptyString]> ∅; console := [] |}
              eq_refl)
    as (res & ws & Hc & _ & Hlost).
  vm_compute in Hc. injection Hc as <- <-.
  apply Hlost; [reflexivity | vm_compute; discriminate].
Defined.

(** ** Lines that [compute] skips *)

Lemma guards_line_free py P args n m fields cols_id chr pos ref alt :
  match guards py P args n fields cols_id chr pos ref alt,
        guards py P args m fields cols_id chr pos ref alt with
  | Ok x, Ok y => x = y
  | Failed _, Failed _ => True
  | _, _ => False
  end.
Proof.
  unfold guards.
  destruct (Py.first_char ref) as [ref0|]; [|exact I].
  destruct (Py.first_char alt) as [alt0|]; [|exact I].
  cbn [or_raise mbind result_bind for_each]. unfold check_nuc.
  destruct (existsb (String.eqb ref0) _); [|exact I].
  cbn [negb mbind result_bind].
  destruct (existsb (String.eqb alt0) _); [|exact I].
  cbn [negb mbind result_bind].
  destruct (Py.int py pos) as [p|]; [|exact I].
  cbn [or_raise mbind result_bind].
  destruct (windows P args chr alt (coordinates args ref alt p)) as [w|]; [|exact I].
  cbn [mbind result_bind].
  destruct (column_text fields cols_id) as [col_txt|]; [|exact I].
  reflexivity.
Qed.

Lemma emitted_line_free py P args cols_id n m fields chr pos ref alt :
  emitted py P args cols_id
    {| line_number := n; columns := fields; chromosome := chr; position := pos;
       reference_allele := ref; alternate_allele := alt |}
  = emitted py P args cols_id
      {| line_number := m; columns := fields; chromosome := chr; position := pos;
         reference_allele := ref; alternate_allele := alt |}.
Proof.
  rewrite !emitted_eq.
  cbn [line_number columns chromosome position reference_allele alternate_allele].
  pose proof (guards_line_free py P args n m fields cols_id chr pos ref alt) as H.
  destruct (guards py P args n fields cols_id chr pos ref alt) as [x|],
           (guards py P args m fields cols_id chr pos ref alt) as [y|];
    try contradiction; [subst y|]; reflexivity.
Qed.

Lemma row_variants_line_free py P args cols_id n m row :
  omap (emitted py P args cols_id) (row_variants n row)
  = omap (emitted py P args cols_id) (row_variants m row).
Proof.
  unfold row_variants. destruct (is_variant_row row); [|reflexivity].
  destruct (take 5 (Py.split Py.TAB (Py.rstrip Py.LF row)))
    as [|chr [|pos [|id [|ref [|alts [|x rest]]]]]]; try reflexivity.
  induction (Py.split "," alts) as [|alt l IH]; [reflexivity|].
  cbn [map omap list_omap]. rewrite IH.
  now rewrite (emitted_line_free py P args cols_id n m).
Qed.

Lemma variants_without_skipped_lines py P args cols_id vcf : forall n m,
  omap (emitted py P args cols_id) (variants_from vcf n)
  = omap (emitted py P args cols_id)
      (variants_from (List.filter is_variant_row vcf) m).
Proof.
  induction vcf as [|row vcf IH]; intros n m; [reflexivity|].
  cbn [variants_from List.filter]. destruct (is_variant_row row) eqn:Hrow.
  - cbn [variants_from]. rewrite !omap_app.
    rewrite (row_variants_line_free py P args cols_id (n + 1) (m + 1) row).
    now rewrite (IH (n + 1) (m + 1)).
  - unfold row_variants at 1. rewrite Hrow. apply IH.
Qed.

Lemma allele_body_line_free py P args n m fields cols_id chr pos ref alt st st1 st' :
  allele_body py P args n fields cols_id chr pos ref alt st = Ok st1 ->
  exists st1', allele_body py P args m fields cols_id chr pos ref alt st' = Ok st1'.
Proof.
  rewrite !allele_body_eq.
  pose proof (guards_line_free py P args n m fields cols_id chr pos ref alt) as H.
  destruct (guards py P args n fields cols_id chr pos ref alt) as [[[p w] c]|];
    [|discriminate].
  destruct (guards py P args m fields cols_id chr pos ref alt) as [[[p' w'] c']|];
    [|contradiction].
  intros _. eexists; reflexivity.
Qed.

Lemma alleles_line_free py P args n m fields cols_id chr pos ref alts :
  forall st st1 st',
  for_each (allele_body py P args n fields cols_id chr pos ref) alts st = Ok st1 ->
  exists st1', for_each (allele_body py P args m fields cols_id chr pos ref) alts st'
               = Ok st1'.
Proof.
  induction alts as [|alt alts IH]; intros st st1 st' H; [eexists; reflexivity|].
  cbn [for_each] in H |- *.
  destruct (allele_body py P args n fields cols_id chr pos ref alt st) as [s|] eqn:E;
    [|discriminate H].
  cbn [mbind result_bind] in H.
  destruct (allele_body_line_free _ _ _ n m _ _ _ _ _ _ _ _ st' E) as [s' ->].
  cbn [mbind result_bind]. eapply IH. exact H.
Qed.

Lemma row_body_line_free py P args cols_id n m row st st1 st' :
  row_body py P args cols_id n row st = Ok st1 ->
  exists st1', row_body py P args cols_id m row st' = Ok st1'.
Proof.
  unfold row_body. intros H.
  destruct (String.eqb (Py.rstrip Py.LF row) EmptyString || Py.startswith "#" row);
    [eexists; reflexivity|].
  destruct (take 5 (Py.split Py.TAB (Py.rstrip Py.LF row)))
    as [|chr [|pos [|id [|ref [|alts [|x rest]]]]]]; try discriminate H.
  destruct (match args_add_columns args with [] => _ | _ :: _ => _ end) as [[]|];
    [|discriminate H].
  cbn [mbind result_bind] in H |- *.
  eapply alleles_line_free. exact H.
Qed.

Lemma rows_loop_without_skipped_lines py P args cols_id vcf : forall n m st st1 st',
  rows_loop py P args cols_id vcf n st = Ok st1 ->
  exists st1', rows_loop py P args cols_id (List.filter is_variant_row vcf) m st' = Ok st1'.
Proof.
  induction vcf as [|row vcf IH]; intros n m st st1 st' H; [eexists; reflexivity|].
  cbn [rows_loop] in H.
  destruct (row_body py P args cols_id (n + 1) row st) as [s|] eqn:E; [|discriminate H].
  cbn [mbind result_bind] in H.
  cbn [List.filter]. destruct (is_variant_row row) eqn:Hrow.
  - cbn [rows_loop].
    destruct (row_body_line_free _ _ _ _ (n + 1) (m + 1) _ _ _ st' E) as [s' ->].
    cbn [mbind result_bind]. eapply IH. exact H.
  - eapply IH. exact H.
Qed.

Lemma rows_loop_with_vcf py P args rows cols_id vcf : forall num_row st,
  rows_loop py P (with_vcf rows args) cols_id vcf num_row st
  = rows_loop py P args cols_id vcf num_row st.
Proof.
  induction vcf as [|row vcf IH]; intros num_row st; [reflexivity|].
  cbn [rows_loop].
  change (row_body py P (with_vcf rows args) cols_id (num_row + 1) row st)
    with (row_body py P args cols_id (num_row + 1) row st).
  destruct (row_body py P args cols_id (num_row + 1) row st); [|reflexivity].
  cbn [mbind result_bind]. apply IH.
Qed.

(** X14.  Comment lines and blank lines take no part in the output:
    when [compute] reaches its end on an input, it also does on that
    input without the lines it skips, and it returns the same records
    (the warnings may differ, they quote line numbers). *)
Theorem skipped_lines_do_not_matter (py : Py.Text) (P : SequenceProvider)
    (get_index : list string -> list Z) (args : Args) res ws :
  compute py P get_index args = Ok (res, ws) ->
  exists ws',
    compute py P get_index (with_vcf (List.filter is_variant_row (args_vcf args)) args)
    = Ok (res, ws').
Proof.
  intros H. apply compute_ok in H. destruct H as (st & Hloop & _ & ->).
  destruct (rows_loop_without_skipped_lines _ _ _ _ _ 0 0 _ _ initial Hloop) as [st' Hst'].
  exists (warnings st'). unfold compute.
  cbn [with_vcf args_add_columns args_vcf].
  rewrite rows_loop_with_vcf, Hst'. cbn [mbind result_bind].
  pose proof (rows_loop_records _ _ _ _ _ _ _ _ Hst') as [Hr Ha].
  cbn [initial res_ref res_alt app] in Hr, Ha.
  rewrite <- (variants_without_skipped_lines py P args _ (args_vcf args) 0 0) in Hr, Ha.
  destruct st' as [rr ra wz]. cbn [res_ref res_alt warnings] in *. subst rr ra.
  fold (variants args).
  change (select (with_vcf (List.filter is_variant_row (args_vcf args)) args))
    with (select args).
  rewrite select_pairs. reflexivity.
Qed.

Lemma skipped_lines_do_not_matter_witness :
  exists ws',
    compute Py.ascii_text (genome_provider example_genome) no_columns
      (with_vcf (List.filter is_variant_row
                   (args_vcf (example_args 5 Alt
                                ["#CHROM POS ID REF ALT"; String Py.LF EmptyString;
                                 vcf_line ["chr1"; "50"; "."; "A"; "T"]])))
         (example_args 5 Alt ["#CHROM POS ID REF ALT"; String Py.LF EmptyString;
                              vcf_line ["chr1"; "50"; "."; "A"; "T"]]))
    = Ok ([ {| header := ">chr1_50_A_T_alt "; sequence := "TATAC" |} ], ws').
Proof.
  exact (skipped_lines_do_not_matter Py.ascii_text (genome_provider example_genome)
           no_columns
           (example_args 5 Alt ["#CHROM POS ID REF ALT"; String Py.LF EmptyString;
                                vcf_line ["chr1"; "50"; "."; "A"; "T"]])
           _ [RefMismatch 3 "chr1" 50 "A" "C"] eq_refl).
Defined.

(** ** Rows and columns *)

Lemma has_char_app c a b : has_char c (a +:+ b) = has_char c a || has_char c b.
Proof.
  induction a as [|x a IH]; [reflexivity|].
  change (has_char c (String x (a +:+ b))
          = (Ascii.eqb x c || has_char c a) || has_char c b).
  cbn [has_char]. rewrite IH. now rewrite orb_assoc.
Qed.

Lemma split_no_sep sep s : has_char sep s = false -> Py.split sep s = [s].
Proof.
  induction s as [|a s IH]; [reflexivity|]. cbn [has_char Py.split].
  intros H. apply orb_false_iff in H. destruct H as [Ha Hs].
  now rewrite Ha, (IH Hs).
Qed.

Lemma split_app sep x s :
  has_char sep x = false -> Py.split sep (x +:+ String sep s) = x :: Py.split sep s.
Proof.
  induction x as [|a x IH]; intros H.
  - change (Py.split sep (String sep s) = EmptyString :: Py.split sep s).
    cbn [Py.split]. now rewrite Ascii.eqb_refl.
  - cbn [has_char] in H. apply orb_false_iff in H. destruct H as [Ha Hx].
    rewrite str_cons_app. cbn [Py.split]. now rewrite Ha, (IH Hx).
Qed.

Lemma split_join sep (fields : list string) :
  fields <> [] ->
  Forall (fun f => has_char sep f = false) fields ->
  Py.split sep (Py.join (String sep EmptyString) fields) = fields.
Proof.
  intros Hne H. induction H as [|x l Hx Hl IH]; [congruence|].
  destruct l as [|y l]; [now apply split_no_sep|].
  change (Py.join (String sep EmptyString) (x :: y :: l))
    with (x +:+ String sep (Py.join (String sep EmptyString) (y :: l))).
  rewrite split_app by exact Hx. now rewrite IH.
Qed.

Lemma rstrip_no c s : has_char c s = false -> Py.rstrip c s = s.
Proof.
  induction s as [|a s IH]; [reflexivity|]. cbn [has_char Py.rstrip].
  intros H. apply orb_false_iff in H. destruct H as [Ha Hs].
  rewrite (IH Hs), Ha. destruct s; reflexivity.
Qed.

Lemma rstrip_app c s : Py.rstrip c (s +:+ String c EmptyString) = Py.rstrip c s.
Proof.
  induction s as [|a s IH].
  - change (Py.rstrip c (String c EmptyString) = EmptyString).
    cbn [Py.rstrip]. now rewrite Ascii.eqb_refl.
  - rewrite str_cons_app. cbn [Py.rstrip]. now rewrite IH.
Qed.

Lemma has_char_join c sep (fields : list string) :
  Ascii.eqb sep c = false ->
  Forall (fun f => has_char c f = false) fields ->
  has_char c (Py.join (String sep EmptyString) fields) = false.
Proof.
  intros Hsep H. induction H as [|x l Hx Hl IH]; [reflexivity|].
  destruct l as [|y l]; [exact Hx|].
  change (Py.join (String sep EmptyString) (x :: y :: l))
    with (x +:+ String sep (Py.join (String sep EmptyString) (y :: l))).
  rewrite has_char_app. cbn [has_char]. now rewrite Hx, Hsep, IH.
Qed.

(** X15.  Line 72 recovers the columns of a row: a line made of one or
    more columns that hold neither a tab nor a newline, joined by tabs
    and ended by a newline, is cut back into exactly those columns. *)
Theorem row_columns_round_trip (fields : list string) :
  fields <> [] ->
  Forall (fun f => has_char Py.TAB f = false /\ has_char Py.LF f = false) fields ->
  Py.split Py.TAB (Py.rstrip Py.LF (vcf_line fields)) = fields.
Proof.
  intros Hne H. unfold vcf_line.
  rewrite rstrip_app, rstrip_no.
  - apply split_join; [exact Hne|]. eapply Forall_impl; [exact H|]. now intros f [? _].
  - apply has_char_join; [reflexivity|]. eapply Forall_impl; [exact H|]. now intros f [_ ?].
Qed.

Lemma row_columns_round_trip_witness :
  Py.split Py.TAB (Py.rstrip Py.LF (vcf_line ["chr1"; "50"; "."; "C"; "T,G"; EmptyString]))
  = ["chr1"; "50"; "."; "C"; "T,G"; EmptyString].
Proof.
  apply row_columns_round_trip; [discriminate|].
  repeat constructor.
Defined.

Lemma getitem_in_range {A} (l : list A) (i : Z) (d : A) :
  0 <= i < Z.of_nat (length l) -> Py.getitem l i = Some (nth (Z.to_nat i) l d).
Proof.
  intros Hi. unfold Py.getitem. cbv zeta.
  destruct (Z.leb_spec 0 i); [|lia]. destruct (Z.ltb_spec i (Z.of_nat (length l))); [|lia].
  cbn [andb].
  destruct (lookup_lt_is_Some_2 l (Z.to_nat i) ltac:(lia)) as [x Hx].
  rewrite Hx. f_equal. symmetry. now apply nth_lookup_Some.
Qed.

Lemma lookup_last {A} (l : list A) (d : A) :
  l <> [] -> l !! (length l - 1)%nat = Some (List.last l d).
Proof.
  induction l as [|x l IH]; [congruence|]. intros _.
  destruct l as [|y l]; [reflexivity|].
  replace (length (x :: y :: l) - 1)%nat with (S (length (y :: l) - 1)) by (cbn; lia).
  change ((y :: l) !! (length (y :: l) - 1)%nat = Some (List.last (y :: l) d)).
  apply IH. discriminate.
Qed.

(** X16.  Line 158 with column numbers between 1 and the number of
    columns of the row puts those columns, in the order asked for, one
    space apart; and a column number of 0, which the test of line 76
    lets through, does not fail: it stands for the last column. *)
Theorem column_text_selects_columns (fields : list string) (cols_id : list Z) :
  (Forall (fun num => 1 <= num <= Z.of_nat (length fields)) cols_id ->
   column_text fields cols_id
   = Ok (Py.join " " (map (fun num => nth (Z.to_nat (num - 1)) fields EmptyString) cols_id)))
  /\
  (fields <> [] -> column_text fields [0] = Ok (List.last fields EmptyString)).
Proof.
  split.
  - intros H. unfold column_text.
    assert (E : mapM (fun num => Py.getitem fields (num - 1)) cols_id
                = Some (map (fun num => nth (Z.to_nat (num - 1)) fields EmptyString)
                            cols_id)).
    { induction H as [|num l Hnum _ IH]; [reflexivity|].
      cbn [mapM map]. rewrite (getitem_in_range fields (num - 1) EmptyString) by lia.
      cbn [mbind option_bind]. rewrite IH. reflexivity. }
    rewrite E. reflexivity.
  - intros Hne. unfold column_text, Py.getitem. cbn [mapM]. cbv zeta.
    destruct (Z.leb_spec 0 (0 - 1)); [lia|]. cbn [andb].
    assert (Hlen : (0 < length fields)%nat) by (destruct fields; [congruence | cbn; lia]).
    destruct (Z.leb_spec (- Z.of_nat (length fields)) (0 - 1)); [|lia].
    destruct (Z.ltb_spec (0 - 1) 0); [|lia]. cbn [andb].
    replace (Z.to_nat (Z.of_nat (length fields) + (0 - 1))) with (length fields - 1)%nat
      by lia.
    rewrite (lookup_last fields EmptyString Hne). reflexivity.
Qed.

Lemma column_text_selects_columns_witness :
  column_text ["chr1"; "50"; "rs1"; "C"; "T"; "PASS"] [3; 1]
  = Ok "rs1 chr1" /\
  column_text ["chr1"; "50"; "rs1"; "C"; "T"; "PASS"] [0] = Ok "PASS".
Proof.
  destruct (column_text_selects_columns ["chr1"; "50"; "rs1"; "C"; "T"; "PASS"] [3; 1])
    as [Hin _].
  destruct (column_text_selects_columns ["chr1"; "50"; "rs1"; "C"; "T"; "PASS"] [0])
    as [_ Hzero].
  split; [|apply Hzero; discriminate].
  apply Hin. repeat (apply List.Forall_cons; [cbn; lia|]). apply List.Forall_nil.
Defined.

(** ** The default output path *)

Lemma rfind_from_spec c s : forall i found,
  (has_char c s = false /\ Py.rfind_from c s i found = found) \/
  (i <= Py.rfind_from c s i found < i + Py.len s /\
   has_char c (Py.drop (Z.to_nat (Py.rfind_from c s i found - i + 1)) s) = false).
Proof.
  induction s as [|a s IH]; intros i found; [left; split; reflexivity|].
  cbn [Py.rfind_from has_char].
  assert (Hlen : Py.len (String a s) = Py.len s + 1)
    by (unfold Py.len; cbn [String.length]; lia).
  pose proof (len_nonneg s) as Hs.
  destruct (IH (i + 1) (if Ascii.eqb a c then i else found)) as [[Hno Hr]|[Hr Hno]].
  - rewrite Hr, Hno. destruct (Ascii.eqb a c).
    + right. split; [lia|].
      replace (i - i + 1) with 1 by lia. exact Hno.
    + left. split; reflexivity.
  - right. split; [lia|].
    set (r := Py.rfind_from c s (i + 1) (if Ascii.eqb a c then i else found)) in *.
    replace (Z.to_nat (r - i + 1)) with (S (Z.to_nat (r - (i + 1) + 1))) by lia.
    exact Hno.
Qed.

Lemma basename_no_slash p : has_char "/" (basename p) = false.
Proof.
  unfold basename, Py.rfind.
  destruct (rfind_from_spec "/" p 0 (-1)) as [[Hno ->]|[_ Hno]].
  - exact Hno.
  - now rewrite Z.sub_0_r in Hno.
Qed.

Lemma has_char_take c n : forall s,
  has_char c s = false -> has_char c (Py.take n s) = false.
Proof.
  induction n as [|n IH]; intros s H; [reflexivity|].
  destruct s as [|a s]; [reflexivity|].
  cbn [has_char Py.take] in *. apply orb_false_iff in H. destruct H as [Ha Hs].
  now rewrite Ha, (IH s Hs).
Qed.

Lemma splitext_no_slash p :
  has_char "/" p = false -> has_char "/" (fst (splitext p)) = false.
Proof.
  intros H. unfold splitext. cbv zeta.
  destruct (_ && _); cbn [fst]; [now apply has_char_take | exact H].
Qed.

(** X17.  Without [--output] (or with an empty one) the output path
    has no directory part, wherever the VCF file is: the file is written
    in the working directory; a non-empty [--output] is used as it
    is. *)
Theorem default_output_in_working_directory (args : Args) :
  (args_output args = None \/ args_output args = Some EmptyString ->
   has_char "/" (output_path args) = false) /\
  (forall o, args_output args = Some o -> o <> EmptyString -> output_path args = o).
Proof.
  split.
  - intros H.
    assert (E : output_path args
                = fst (splitext (basename (args_vcf_name args))) +:+ "-vcf2seq.fa")
      by (unfold output_path; destruct H as [-> | ->]; reflexivity).
    rewrite E, has_char_app, splitext_no_slash by apply basename_no_slash.
    reflexivity.
  - intros o Ho Hne. unfold output_path. rewrite Ho.
    destruct (String.eqb_spec o EmptyString); [contradiction | reflexivity].
Qed.

Lemma default_output_in_working_directory_witness :
  has_char "/"
    (output_path {| args_vcf_name := "/data/run.7/calls.vcf.gz"; args_vcf := [];
                    args_genome := "genome.fa"; args_size := 31; args_type := Alt;
                    args_blank := "."; args_add_columns := []; args_output := None |})
  = false.
Proof.
  apply (proj1 (default_output_in_working_directory
                  {| args_vcf_name := "/data/run.7/calls.vcf.gz"; args_vcf := [];
                     args_genome := "genome.fa"; args_size := 31; args_type := Alt;
                     args_blank := "."; args_add_columns := [];
                     args_output := None |})).
  left. reflexivity.
Defined.

Example default_output_ex :
  output_path {| args_vcf_name := "/data/run.7/calls.vcf.gz"; args_vcf := [];
                 args_genome := "genome.fa"; args_size := 31; args_type := Alt;
                 args_blank := "."; args_add_columns := []; args_output := None |}
  = "calls.vcf-vcf2seq.fa".
Proof. reflexivity. Qed.

(** ** Columns, warnings and headers of one pair *)

(** X18.  With [--add-columns], a row that [compute] does not skip, has
    at least five columns and fewer columns than the largest column
    number asked for ends the run with the "vcf file has ... columns"
    message, which quotes the number of columns of that row, before any
    allele of the row is looked at. *)
Theorem too_few_columns_is_fatal (py : Py.Text) (P : SequenceProvider) (args : Args)
    (cols_id : list Z) (num_row : Z) (row : string) (st : State)
    (chr pos id ref alts : string) (more : list string) (m : Z) :
  is_variant_row row = true ->
  Py.split Py.TAB (Py.rstrip Py.LF row) = chr :: pos :: id :: ref :: alts :: more ->
  args_add_columns args <> [] ->
  Py.max_list cols_id = Some m ->
  Z.of_nat (length (chr :: pos :: id :: ref :: alts :: more)) < m ->
  row_body py P args cols_id num_row row st
  = Failed (ErrorColumns (Z.of_nat (length (chr :: pos :: id :: ref :: alts :: more)))).
Proof.
  unfold is_variant_row, row_body. intros Hrow Hs Hadd Hmax Hlt.
  apply negb_true_iff in Hrow. rewrite Hrow, Hs. cbn [take firstn].
  destruct (args_add_columns args) as [|c cs]; [congruence|].
  rewrite Hmax. cbn [or_raise mbind result_bind].
  destruct (Z.gtb_spec m (Z.of_nat (length (chr :: pos :: id :: ref :: alts :: more))));
    [reflexivity | lia].
Qed.

Lemma too_few_columns_is_fatal_witness :
  row_body Py.ascii_text (genome_provider example_genome)
    {| args_vcf_name := "calls.vcf"; args_vcf := []; args_genome := "genome.fa";
       args_size := 5; args_type := Alt; args_blank := "."; args_add_columns := ["H"];
       args_output := None |}
    [8] 1 (vcf_line ["chr1"; "50"; "."; "C"; "T"]) initial
  = Failed (ErrorColumns 5).
Proof.
  exact (too_few_columns_is_fatal Py.ascii_text (genome_provider example_genome)
           {| args_vcf_name := "calls.vcf"; args_vcf := []; args_genome := "genome.fa";
              args_size := 5; args_type := Alt; args_blank := ".";
              args_add_columns := ["H"]; args_output := None |}
           [8] 1 (vcf_line ["chr1"; "50"; "."; "C"; "T"]) initial
           "chr1" "50" "." "C" "T" [] 8
           eq_refl eq_refl ltac:(discriminate) eq_refl eq_refl).
Defined.

(** X19.  An allele pair that does not end the run keeps the warnings
    there were and adds at most three, in this order: the large
    alteration warning when REF or ALT is longer than [K]; the mismatch
    warning when REF is not the blank marker and differs from the
    genome; and, when the pair is not accepted, one of the two "ignored"
    warnings.  A mismatch alone never drops the pair. *)
Theorem pair_warnings (py : Py.Text) (P : SequenceProvider) (args : Args)
    (num_row : Z) (fields : list string) (cols_id : list Z)
    (chr position ref alt : string) (st st' : State) :
  allele_body py P args num_row fields cols_id chr position ref alt st = Ok st' ->
  exists pos w,
    Py.int py position = Some pos /\
    windows P args chr alt (coordinates args ref alt pos) = Ok w /\
    warnings st'
    = warnings st
      ++ (if Z.max (Py.len ref) (Py.len alt) >? args_size args
          then [LargeAlteration chr position ref alt] else [])
      ++ (if Py.truthy (effective_length (args_blank args) ref)
             && negb (String.eqb ref (seq_ref2 w))
          then [RefMismatch num_row chr pos ref (seq_ref2 w)] else [])
      ++ (if accepted args w then []
          else if Py.len (alt_seq w) >? args_size args
               then [AltLarger (Py.len (alt_seq w)) (args_size args) num_row]
               else [SizeNotCorrect num_row (Py.len (alt_seq w)) (args_size args)]).
Proof.
  intros H. rewrite allele_body_eq in H.
  destruct (guards _ _ _ _ _ _ _ _ _ _) as [[[pos w] col_txt]|] eqn:G; [|discriminate H].
  injection H as <-. apply guards_ok in G. destruct G as (Hp & Hw & _).
  exists pos, w. split; [exact Hp|]. split; [exact Hw|].
  destruct (coordinates_fields args ref alt pos)
    as (_ & _ & Hr2 & _ & _ & _ & _ & _ & Hp2 & _).
  unfold verdict. rewrite Hr2, Hp2. replace (pos - 1 + 1) with pos by lia.
  destruct (accepted args w); [|destruct (Py.len (alt_seq w) >? args_size args)];
    destruct (Z.max (Py.len ref) (Py.len alt) >? args_size args);
    destruct (Py.truthy (effective_length (args_blank args) ref)
              && negb (String.eqb ref (seq_ref2 w)));
    cbn [warn accept warnings app]; rewrite <- ?app_assoc, ?app_nil_r; reflexivity.
Qed.

Lemma pair_warnings_witness :
  exists pos w,
    Py.int Py.ascii_text "50" = Some pos /\
    windows (genome_provider example_genome) (example_args 5 Alt []) "chr1" "T"
      (coordinates (example_args 5 Alt []) "A" "T" pos) = Ok w /\
    [RefMismatch 1 "chr1" 50 "A" "C"]
    = [] ++ [] ++ (if Py.truthy (effective_length "." "A")
                      && negb (String.eqb "A" (seq_ref2 w))
                   then [RefMismatch 1 "chr1" pos "A" (seq_ref2 w)] else [])
         ++ (if accepted (example_args 5 Alt []) w then []
             else if Py.len (alt_seq w) >? 5
                  then [AltLarger (Py.len (alt_seq w)) 5 1]
                  else [SizeNotCorrect 1 (Py.len (alt_seq w)) 5]).
Proof.
  exact (pair_warnings Py.ascii_text (genome_provider example_genome)
           (example_args 5 Alt []) 1 ["chr1"; "50"; "."; "A"; "T"] []
           "chr1" "50" "A" "T" initial
           {| res_ref := [ {| header := ">chr1_50_A_T_ref "; sequence := "TACAC" |} ];
              res_alt := [ {| header := ">chr1_50_A_T_alt "; sequence := "TATAC" |} ];
              warnings := [RefMismatch 1 "chr1" 50 "A" "C"] |}
           eq_refl).
Defined.

Lemma coordinates_same_length args ref ref' alt pos :
  Py.len ref = Py.len ref' ->
  String.eqb ref (args_blank args) = String.eqb ref' (args_blank args) ->
  coordinates args ref alt pos = coordinates args ref' alt pos.
Proof.
  intros Hlen Hb. unfold coordinates, corrections. now rewrite Hlen, Hb.
Qed.

(** X20.  The letters of REF never reach the sequences: when a variant
    is accepted, the same variant with another REF of the same length,
    whose first character passes the test of lines 91-96 and which is
    the blank marker or not as the first is, is accepted too, with the
    same two sequences. *)
Theorem reference_text_is_not_copied (py : Py.Text) (P : SequenceProvider) (args : Args)
    (cols_id : list Z) (num_row : Z) (fields : list string)
    (chr pos ref ref' alt : string) (c : ascii) (rest : string) (r a : SequenceRecord) :
  ref' = String c rest ->
  in_NUC args (String c EmptyString) = true ->
  Py.len ref = Py.len ref' ->
  String.eqb ref (args_blank args) = String.eqb ref' (args_blank args) ->
  emitted py P args cols_id
    {| line_number := num_row; columns := fields; chromosome := chr; position := pos;
       reference_allele := ref; alternate_allele := alt |} = Some (r, a) ->
  exists r' a',
    emitted py P args cols_id
      {| line_number := num_row; columns := fields; chromosome := chr; position := pos;
         reference_allele := ref'; alternate_allele := alt |} = Some (r', a') /\
    sequence r' = sequence r /\ sequence a' = sequence a.
Proof.
  intros -> Hc Hlen Hb. rewrite !emitted_eq.
  cbn [line_number columns chromosome position reference_allele alternate_allele].
  unfold guards.
  destruct (Py.first_char ref) as [ref0|]; [|discriminate].
  cbn [Py.first_char].
  destruct (Py.first_char alt) as [alt0|]; [|discriminate].
  cbn [or_raise mbind result_bind for_each]. unfold check_nuc.
  unfold in_NUC in Hc. rewrite Hc.
  destruct (existsb (String.eqb ref0) _); [|discriminate].
  cbn [negb mbind result_bind].
  destruct (existsb (String.eqb alt0) _); [|discriminate].
  cbn [negb mbind result_bind].
  destruct (Py.int py pos) as [p|]; [|discriminate].
  cbn [or_raise mbind result_bind].
  rewrite <- (coordinates_same_length args ref (String c rest) alt p Hlen Hb).
  destruct (windows P args chr alt (coordinates args ref alt p)) as [w|]; [|discriminate].
  cbn [mbind result_bind].
  destruct (column_text fields cols_id) as [col_txt|]; [|discriminate].
  cbn [mbind result_bind].
  destruct (accepted args w); [|discriminate].
  intros H. injection H as <- <-.
  eexists _, _. split; [reflexivity|]. split; reflexivity.
Qed.

Lemma reference_text_is_not_copied_witness :
  exists r' a',
    emitted Py.ascii_text (genome_provider example_genome) (example_args 5 Alt []) []
      {| line_number := 1; columns := []; chromosome := "chr1"; position := "50";
         reference_allele := "G"; alternate_allele := "T" |} = Some (r', a') /\
    sequence r' = "TACAC" /\ sequence a' = "TATAC".
Proof.
  exact (reference_text_is_not_copied Py.ascii_text (genome_provider example_genome)
           (example_args 5 Alt []) [] 1 [] "chr1" "50" "C" "G" "T" "G" EmptyString
           {| header := ">chr1_50_C_T_ref "; sequence := "TACAC" |}
           {| header := ">chr1_50_C_T_alt "; sequence := "TATAC" |}
           eq_refl eq_refl eq_refl eq_refl eq_refl).
Defined.

(** X21.  The two records of an accepted variant carry the header
    ">chrom_pos_ref_alt", with the columns of the row as they are
    written (an allele that is the blank marker included), followed by
    "_ref " and "_alt " and the text of the added columns: a space
    follows the suffix even when no column is added. *)
Theorem record_headers (py : Py.Text) (P : SequenceProvider) (args : Args)
    (cols_id : list Z) (v : Variant) (r a : SequenceRecord) :
  emitted py P args cols_id v = Some (r, a) ->
  exists col_txt,
    column_text (columns v) cols_id = Ok col_txt /\
    header r = ">" +:+ chromosome v +:+ "_" +:+ position v +:+ "_" +:+ reference_allele v
               +:+ "_" +:+ alternate_allele v +:+ "_ref " +:+ col_txt /\
    header a = ">" +:+ chromosome v +:+ "_" +:+ position v +:+ "_" +:+ reference_allele v
               +:+ "_" +:+ alternate_allele v +:+ "_alt " +:+ col_txt.
Proof.
  rewrite emitted_eq.
  destruct (guards _ _ _ _ _ _ _ _ _ _) as [[[pos w] col_txt]|] eqn:G; [|discriminate].
  destruct (accepted args w); [|discriminate].
  intros H. injection H as <- <-. apply guards_ok in G. destruct G as (_ & _ & Hcol).
  exists col_txt. split; [exact Hcol|]. cbn [records_of header].
  rewrite !str_app_assoc. split; reflexivity.
Qed.

Lemma record_headers_witness :
  exists col_txt,
    column_text ["chr1"; "50"; "rs1"; "CA"; "."] [3] = Ok col_txt /\
    ">chr1_50_CA_._ref rs1"
    = ">" +:+ "chr1" +:+ "_" +:+ "50" +:+ "_" +:+ "CA" +:+ "_" +:+ "." +:+ "_ref "
      +:+ col_txt /\
    ">chr1_50_CA_._alt rs1"
    = ">" +:+ "chr1" +:+ "_" +:+ "50" +:+ "_" +:+ "CA" +:+ "_" +:+ "." +:+ "_alt "
      +:+ col_txt.
Proof.
  exact (record_headers Py.ascii_text (genome_provider example_genome)
           (example_args 5 Alt []) [3]
           {| line_number := 1; columns := ["chr1"; "50"; "rs1"; "CA"; "."];
              chromosome := "chr1"; position := "50"; reference_allele := "CA";
              alternate_allele := "." |}
           {| header := ">chr1_50_CA_._ref rs1"; sequence := "ACACG" |}
           {| header := ">chr1_50_CA_._alt rs1"; sequence := "TACGT" |}
           eq_refl).
Defined.
